(** * AnimatedCounter (modules/animations/AnimatedCounter.mjs)

    A shallow embedding of the [AnimatedCounter] class of js-lib and the
    verification of its specification.

    - JavaScript numbers are IEEE 754 binary64 values: Rocq's primitive
      [float], with the same rounding, infinities, signed zeros and NaN.
    - JavaScript strings are Rocq [string]s holding the UTF-8 encoding of
      the text; lengths are counted in UTF-16 code units as [String.length]
      of JavaScript does.
    - The object is a record of its fields; a method is a function from
      the page (object, scroll listener, pending animation frames) to the
      page.  What the browser provides ([Intl.NumberFormat], the layout
      of the node, the clock of the document timeline) is an explicit
      parameter. *)

From Stdlib Require Import Floats ZArith String Ascii DecimalString List Bool Lia.
Import ListNotations.

Set Warnings "-inexact-float".

(* ================================================================== *)
(** * The JavaScript primitives the class relies on *)
(* ================================================================== *)

Module JS.

Definition number := float.

(** The number nearest to an integer (round to nearest, ties to even),
    [neg] deciding the sign of a zero result. *)
Definition of_Z (neg : bool) (z : Z) : number :=
  SF2Prim (binary_normalize prec emax (if neg then Z.opp z else z) 0 neg).

(** The number nearest to the ratio [m / d]. *)
Definition of_ratio (neg : bool) (m d : positive) : number :=
  SF2Prim (SFdiv prec emax (S754_finite neg m 0) (S754_finite false d 0)).

Definition of_nat (n : nat) : number := of_Z false (Z.of_nat n).

(** [Math.round]: the nearest integer, a tie going towards +infinity;
    NaN, the infinities and integers are returned unchanged, and a
    result of zero keeps the sign of the argument. *)
Definition Math_round (x : number) : number :=
  match Prim2SF x with
  | S754_finite s m (Zneg k) =>
      let v := if s then Z.neg m else Z.pos m in
      of_Z s (Z.abs ((2 * v + Z.pow_pos 2 k) / Z.pow_pos 2 (Pos.succ k)))
  | _ => x
  end.

(** [!x] for a number: zero and NaN are falsy. *)
Definition falsy (x : number) : bool := is_zero x || is_nan x.

(** ** Strings *)

Definition byte (c : ascii) : N := N_of_ascii c.

(** [String.prototype.split] on a one-character separator. *)
Fixpoint split (sep : ascii) (s : string) : list string :=
  match s with
  | EmptyString => [EmptyString]
  | String c r =>
      if Ascii.eqb c sep then EmptyString :: split sep r
      else match split sep r with
           | h :: t => String c h :: t
           | [] => [String c EmptyString]
           end
  end.

(** The text after the first occurrence of [c], if any:
    [s.indexOf(c)] is [> -1] exactly when it exists. *)
Fixpoint after_first (c : ascii) (s : string) : option string :=
  match s with
  | EmptyString => None
  | String a r => if Ascii.eqb a c then Some r else after_first c r
  end.

(** [s.length]: UTF-16 code units of a UTF-8 encoded text. *)
Fixpoint utf16_length (s : string) : nat :=
  match s with
  | EmptyString => 0
  | String a r =>
      let x := byte a in
      (if ((128 <=? x) && (x <? 192))%N then 0
       else if (240 <=? x)%N then 2 else 1) + utf16_length r
  end.

(** StrWhiteSpaceChar: TAB, LF, VT, FF, CR, SP, and (UTF-8 encoded)
    U+00A0, U+1680, U+2000..U+200A, U+2028, U+2029, U+202F, U+205F,
    U+3000, U+FEFF. *)
Definition ws1 (x : N) : bool :=
  ((9 <=? x) && (x <=? 13) || (x =? 32))%N.

Definition ws2 (x y : N) : bool := ((x =? 194) && (y =? 160))%N.

Definition ws3 (x y z : N) : bool :=
  ((x =? 225) && (y =? 154) && (z =? 128)
   || (x =? 226) && (y =? 128)
        && ((128 <=? z) && (z <=? 138) || (z =? 168) || (z =? 169) || (z =? 175))
   || (x =? 226) && (y =? 129) && (z =? 159)
   || (x =? 227) && (y =? 128) && (z =? 128)
   || (x =? 239) && (y =? 187) && (z =? 191))%N.

Fixpoint skip_ws (s : string) : string :=
  match s with
  | EmptyString => s
  | String a r =>
      if ws1 (byte a) then skip_ws r
      else match r with
           | EmptyString => s
           | String b r1 =>
               if ws2 (byte a) (byte b) then skip_ws r1
               else match r1 with
                    | EmptyString => s
                    | String c r2 =>
                        if ws3 (byte a) (byte b) (byte c) then skip_ws r2
                        else s
                    end
           end
  end.

Definition blank (s : string) : bool :=
  match skip_ws s with EmptyString => true | _ => false end.

(** ** Numeric literals *)

Local Open Scope Z_scope.

Definition digit_val (radix : Z) (c : ascii) : option Z :=
  let x := Z.of_N (byte c) in
  let d := if (48 <=? x) && (x <=? 57) then x - 48
           else if (97 <=? x) && (x <=? 122) then x - 87
           else if (65 <=? x) && (x <=? 90) then x - 55
           else radix in
  if d <? radix then Some d else None.

(** The longest prefix of digits: its value on top of [acc], the number
    of digits read on top of [n], and the rest. *)
Fixpoint scan_digits (radix acc : Z) (n : nat) (s : string)
  : Z * nat * string :=
  match s with
  | EmptyString => (acc, n, s)
  | String c r =>
      match digit_val radix c with
      | Some d => scan_digits radix (acc * radix + d) (S n) r
      | None => (acc, n, s)
      end
  end.

Definition strip_sign (s : string) : bool * string :=
  match s with
  | String "-" r => (true, r)
  | String "+" r => (false, r)
  | _ => (false, s)
  end.

Fixpoint strip_prefix (p s : string) : option string :=
  match p, s with
  | EmptyString, _ => Some s
  | String a p', String b s' =>
      if Ascii.eqb a b then strip_prefix p' s' else None
  | _, _ => None
  end.

(** The number [(-1)^neg * m * 10^e]. *)
Definition decimal (neg : bool) (m e : Z) : number :=
  match m, e with
  | Zpos p, Zneg k => of_ratio neg p (Pos.pow 10 k)
  | _, _ => of_Z neg (m * 10 ^ e)
  end.

(** ExponentPart, when one follows: [e] or [E], an optional sign and at
    least one digit. *)
Definition exponent_part (s : string) : Z * string :=
  match s with
  | String c r =>
      if Ascii.eqb c "e" || Ascii.eqb c "E" then
        let '(neg, r1) := strip_sign r in
        let '(v, n, r2) := scan_digits 10 0 0 r1 in
        match n with
        | O => (0, s)
        | _ => (if neg then - v else v, r2)
        end
      else (0, s)
  | EmptyString => (0, s)
  end.

(** The longest prefix that is a StrUnsignedDecimalLiteral, read with the
    sign [neg], and the rest. *)
Definition unsigned_decimal (neg : bool) (s : string)
  : option (number * string) :=
  match strip_prefix "Infinity" s with
  | Some r => Some (if neg then neg_infinity else infinity, r)
  | None =>
      let '(ip, ni, r1) := scan_digits 10 0 0 s in
      let mantissa :=
        match r1 with
        | String "." r2 =>
            let '(m, nf, r3) := scan_digits 10 ip 0 r2 in
            match ni, nf with
            | O, O => None
            | _, _ => Some (m, - Z.of_nat nf, r3)
            end
        | _ => match ni with O => None | _ => Some (ip, 0, r1) end
        end in
      match mantissa with
      | None => None
      | Some (m, e, r) =>
          let '(x, r') := exponent_part r in
          Some (decimal neg m (e + x), r')
      end
  end.

(** [parseFloat(s)]. *)
Definition parseFloat (s : string) : number :=
  let '(neg, r) := strip_sign (skip_ws s) in
  match unsigned_decimal neg r with
  | Some (x, _) => x
  | None => nan
  end.

(** [parseInt(s)], no radix given: base 16 after [0x] or [0X], else 10. *)
Definition parseInt (s : string) : number :=
  let '(neg, r) := strip_sign (skip_ws s) in
  let '(radix, r1) :=
    match r with
    | String "0" (String c r') =>
        if Ascii.eqb c "x" || Ascii.eqb c "X" then (16, r') else (10, r)
    | _ => (10, r)
    end in
  let '(v, n, _) := scan_digits radix 0 0 r1 in
  match n with
  | O => nan
  | _ => of_Z neg v
  end.

(** ToNumber applied to a string (StringToNumber): the whole text,
    white space trimmed, must be a numeric literal; the empty text is 0. *)
Definition radix_literal (s : string) : option (Z * string) :=
  match s with
  | String "0" (String c r) =>
      if Ascii.eqb c "x" || Ascii.eqb c "X" then Some (16, r)
      else if Ascii.eqb c "o" || Ascii.eqb c "O" then Some (8, r)
      else if Ascii.eqb c "b" || Ascii.eqb c "B" then Some (2, r)
      else None
  | _ => None
  end.

Definition StringToNumber (s : string) : number :=
  let t := skip_ws s in
  match t with
  | EmptyString => PrimFloat.zero
  | _ =>
      match radix_literal t with
      | Some (radix, r) =>
          let '(v, n, r') := scan_digits radix 0 0 r in
          match n with
          | O => nan
          | _ => if blank r' then of_Z false v else nan
          end
      | None =>
          let '(neg, r) := strip_sign t in
          match unsigned_decimal neg r with
          | Some (x, r') => if blank r' then x else nan
          | None => nan
          end
      end
  end.

End JS.

(* ================================================================== *)
(** * The browser: what the class asks of its host *)
(* ================================================================== *)

Module Browser.
Import JS.

(** The options bag the constructor hands to [Intl.NumberFormat]. *)
Record NumberFormatOptions := {
  style : string;
  currency : option string;
  unit : option string;
  minimumFractionDigits : number;
  maximumFractionDigits : number
}.

(** [Intl.NumberFormat] belongs to the host.  [NumberFormat_accepts l o]
    tells whether [new Intl.NumberFormat(l, o)] returns (it throws a
    RangeError otherwise); [NumberFormat_format l o x] is the text
    [format(x)] of the formatter so built. *)
Class Intl := {
  NumberFormat_accepts : string -> NumberFormatOptions -> bool;
  NumberFormat_format : string -> NumberFormatOptions -> number -> string
}.

(** A formatter object: the locale and options it was built with. *)
Record NumberFormat := {
  locale : string;
  options : NumberFormatOptions
}.

Definition format `{Intl} (f : NumberFormat) (x : number) : string :=
  NumberFormat_format (locale f) (options f) x.

(** The element: its [data-counter] attribute ([dataset.counter], absent
    when the attribute is missing) and its text. *)
Record HTMLElement := {
  dataset_counter : option string;
  textContent : string
}.

(** [node.getBoundingClientRect()]. *)
Record DOMRect := {
  rect_width : number;
  rect_height : number;
  rect_top : number;
  rect_left : number;
  rect_bottom : number;
  rect_right : number
}.

(** What a method reads from the host when it runs: the rectangle of the
    node, the size of the window, and [document.timeline.currentTime]. *)
Record Window := {
  boundingClientRect : DOMRect;
  innerWidth : number;
  innerHeight : number;
  currentTime : number
}.

(** Exceptions a constructor call can end with. *)
Inductive exn := TypeError | RangeError.

Inductive result (A : Type) :=
| Returns (a : A)
| Throws (e : exn).
Arguments Returns {A} a.
Arguments Throws {A} e.

End Browser.

(* ================================================================== *)
(** * The class *)
(* ================================================================== *)

Module AnimatedCounter.
Import JS Browser.
Local Open Scope string_scope.
Local Open Scope float_scope.

(** Class constants: DISABLED = -1, READY = 0, ACTIVE = 1, COMPLETE = 2. *)
Inductive anim_state :=
| ANIM_DISABLED
| ANIM_READY
| ANIM_ACTIVE
| ANIM_COMPLETE.

Definition state_code (s : anim_state) : Z :=
  match s with
  | ANIM_DISABLED => -1
  | ANIM_READY => 0
  | ANIM_ACTIVE => 1
  | ANIM_COMPLETE => 2
  end.

Definition state_eqb (a b : anim_state) : bool :=
  Z.eqb (state_code a) (state_code b).

(** What the field [current] holds: [animate] stores numbers in it,
    [reset] stores the formatted text. *)
Inductive value :=
| Num (x : number)
| Str (s : string).

Definition ToNumber (v : value) : number :=
  match v with
  | Num x => x
  | Str s => StringToNumber s
  end.

(** [a >= b], [a > b], [a < b], [a <= b], [a != b] on numbers: false as
    soon as an operand is NaN, except [!=], which is then true. *)
Definition ge (a b : number) : bool := b <=? a.
Definition gt (a b : number) : bool := b <? a.
Definition lt (a b : number) : bool := a <? b.
Definition le (a b : number) : bool := a <=? b.
Definition ne (a b : number) : bool := negb (a =? b).

(** The fields of an instance. *)
Record Counter := {
  debug : bool;
  language : string;
  node : HTMLElement;
  count : number;
  start : number;
  current : value;
  target : number;
  increment : number;
  limit : number;
  precision : number;
  duration : number;
  state : anim_state;
  timestamp : number;
  formatter : NumberFormat
}.

Definition set_count (x : number) (c : Counter) : Counter :=
  {| debug := debug c; language := language c; node := node c;
     count := x; start := start c; current := current c;
     target := target c; increment := increment c; limit := limit c;
     precision := precision c; duration := duration c; state := state c;
     timestamp := timestamp c; formatter := formatter c |}.

Definition set_limit (x : number) (c : Counter) : Counter :=
  {| debug := debug c; language := language c; node := node c;
     count := count c; start := start c; current := current c;
     target := target c; increment := increment c; limit := x;
     precision := precision c; duration := duration c; state := state c;
     timestamp := timestamp c; formatter := formatter c |}.

Definition set_current (v : value) (c : Counter) : Counter :=
  {| debug := debug c; language := language c; node := node c;
     count := count c; start := start c; current := v;
     target := target c; increment := increment c; limit := limit c;
     precision := precision c; duration := duration c; state := state c;
     timestamp := timestamp c; formatter := formatter c |}.

Definition set_state (s : anim_state) (c : Counter) : Counter :=
  {| debug := debug c; language := language c; node := node c;
     count := count c; start := start c; current := current c;
     target := target c; increment := increment c; limit := limit c;
     precision := precision c; duration := duration c; state := s;
     timestamp := timestamp c; formatter := formatter c |}.

Definition set_timestamp (x : number) (c : Counter) : Counter :=
  {| debug := debug c; language := language c; node := node c;
     count := count c; start := start c; current := current c;
     target := target c; increment := increment c; limit := limit c;
     precision := precision c; duration := duration c; state := state c;
     timestamp := x; formatter := formatter c |}.

(** [this.node.textContent = s]. *)
Definition set_textContent (s : string) (c : Counter) : Counter :=
  {| debug := debug c; language := language c;
     node := {| dataset_counter := dataset_counter (node c);
                textContent := s |};
     count := count c; start := start c; current := current c;
     target := target c; increment := increment c; limit := limit c;
     precision := precision c; duration := duration c; state := state c;
     timestamp := timestamp c; formatter := formatter c |}.

(** The instance on its page: whether [this.animateOnScroll] is a scroll
    listener of the document, and how many calls of [this.animate] handed
    to [requestAnimationFrame] have not run yet. *)
Record Page := {
  self : Counter;
  scroll_listener : bool;
  animation_frames : nat
}.

Definition on_self (f : Counter -> Counter) (p : Page) : Page :=
  {| self := f (self p);
     scroll_listener := scroll_listener p;
     animation_frames := animation_frames p |}.

(** [requestAnimationFrame(this.animate)]. *)
Definition requestAnimationFrame (p : Page) : Page :=
  {| self := self p;
     scroll_listener := scroll_listener p;
     animation_frames := S (animation_frames p) |}.

(** [document.addEventListener('scroll', this.animateOnScroll)]: adding a
    listener that is already there changes nothing. *)
Definition addEventListener (p : Page) : Page :=
  {| self := self p;
     scroll_listener := true;
     animation_frames := animation_frames p |}.

(** [document.removeEventListener('scroll', this.animateOnScroll)]. *)
Definition removeEventListener (p : Page) : Page :=
  {| self := self p;
     scroll_listener := false;
     animation_frames := animation_frames p |}.

(** Options of the constructor; a field is [None] when the option is
    absent or not of the type the constructor tests for. *)
Inductive debug_option :=
| DebugBoolean (b : bool)
| DebugNumber (x : number).

Record Options := {
  opt_debug : option debug_option;
  opt_language : option string;
  opt_limit : option number;
  opt_precision : option number
}.

Definition no_options : Options :=
  {| opt_debug := None; opt_language := None;
     opt_limit := None; opt_precision := None |}.

(** The [switch] over the format code: style, currency, unit. *)
Definition format_codes : list (string * (string * option string * option string)) :=
  let cur c := ("currency", Some c, None) in
  let uni u := ("unit", None, Some u) in
  [ ("%", ("percent", None, None));
    ("$", cur "USD"); ("€", cur "EUR"); ("£", cur "GBP");
    ("cad", cur "CAD"); ("eur", cur "EUR"); ("gbp", cur "GBP");
    ("usd", cur "USD");
    ("b", uni "bit"); ("B", uni "byte"); ("c", uni "celsius");
    ("cm", uni "centimeter"); ("d", uni "day"); ("deg", uni "degree");
    ("f", uni "fahrenheit"); ("foz", uni "fluid-ounce"); ("ft", uni "foot");
    ("g", uni "gram"); ("gal", uni "gallon"); ("gb", uni "gigabit");
    ("GB", uni "gigabyte"); ("h", uni "hour"); ("in", uni "inch");
    ("kb", uni "kilobit"); ("KB", uni "kilobyte"); ("kg", uni "kilogram");
    ("km", uni "kilometer"); ("l", uni "liter"); ("lb", uni "pound");
    ("m", uni "meter"); ("mb", uni "megabit"); ("MB", uni "megabyte");
    ("mi", uni "mile"); ("min", uni "minute"); ("ml", uni "milliliter");
    ("mm", uni "millimeter"); ("μs", uni "microsecond");
    ("ms", uni "millisecond"); ("ns", uni "nanosecond"); ("oz", uni "ounce");
    ("pb", uni "petabit"); ("PB", uni "petabyte"); ("pct", uni "percent");
    ("s", uni "second"); ("tb", uni "terabit"); ("TB", uni "terabyte");
    ("yd", uni "yard"); ("yr", uni "year") ].

Definition format_options (code : option string) (digits : number)
  : NumberFormatOptions :=
  let '(st, cu, un) :=
    match code with
    | None => ("decimal", None, None)
    | Some k =>
        match find (fun e => String.eqb (fst e) k) format_codes with
        | Some e => snd e
        | None => ("decimal", None, None)
        end
    end in
  {| style := st; currency := cu; unit := un;
     minimumFractionDigits := digits; maximumFractionDigits := digits |}.

Section Methods.
Context `{Intl}.

(** [steps()] *)
Definition steps (c : Counter) : number :=
  target c - start c / increment c.

(** [reset()] *)
Definition reset (c : Counter) : Counter :=
  let c := set_timestamp 0 c in
  let text := format (formatter c) (target c) in
  let c := set_current (Str text) c in
  let c := set_textContent text c in
  set_state ANIM_READY c.

(** [inView()] *)
Definition inView (w : Window) : bool :=
  let r := boundingClientRect w in
  ne (rect_width r) 0 && ne (rect_height r) 0
  && ge (rect_top r) 0 && ge (rect_left r) 0
  && le (rect_bottom r) (innerHeight w) && le (rect_right r) (innerWidth w).

(** The update [animate] makes of an ACTIVE instance for the frame time
    [t]: the body of [if (elapsed > 0)], up to the write to the node. *)
Definition frame (t : number) (c : Counter) : Counter :=
  let elapsed := t - timestamp c in
  if gt elapsed 0 then
    let percent_complete := elapsed / duration c in
    let steps_complete := steps c * percent_complete in
    let cur := Math_round (steps_complete / increment c) * increment c in
    let cur := if ge cur (target c) then target c else cur in
    let cur := if gt elapsed (duration c) then target c else cur in
    set_textContent (format (formatter c) cur) (set_current (Num cur) c)
  else c.

(** [animate(timestamp)] *)
Definition animate (t : number) (w : Window) (p : Page) : Page :=
  match state (self p) with
  | ANIM_DISABLED => p
  | ANIM_COMPLETE => p
  | ANIM_READY =>
      let p := on_self (fun c => set_current (Num (start c)) c) p in
      let p := on_self (set_state ANIM_ACTIVE) p in
      let p := on_self (set_timestamp (currentTime w)) p in
      let p := requestAnimationFrame p in
      on_self (fun c => set_count (count c + 1) c) p
  | ANIM_ACTIVE =>
      let p := on_self (frame t) p in
      if ge (ToNumber (current (self p))) (target (self p))
      then on_self (set_state ANIM_COMPLETE) p
      else requestAnimationFrame p
  end.

(** [disable()] *)
Definition disable (p : Page) : Page :=
  let p := on_self reset p in
  let p := on_self (set_state ANIM_DISABLED) p in
  removeEventListener p.

(** [enable()]; [this.animate()] is called without a time: the
    undefined argument is NaN in arithmetic. *)
Definition enable (w : Window) (p : Page) : Page :=
  let p := on_self reset p in
  let p := if inView w then animate nan w p else p in
  addEventListener p.

(** [animateOnScroll()] *)
Definition animateOnScroll (w : Window) (p : Page) : Page :=
  let c := self p in
  if falsy (limit c) || lt (count c) (limit c) then
    if negb (inView w) then on_self reset p
    else if state_eqb (state c) ANIM_READY then animate nan w p
    else p
  else if negb (state_eqb (state c) ANIM_ACTIVE) then disable p
  else p.

(** The element of a directive, if any: [data[i]] is undefined past the
    last segment. *)
Definition segment (data : list string) (i : nat) : option string :=
  nth_error data i.

(** [new AnimatedCounter(element, opts)], run in the window [w].  The
    instance fields start from their initialisers (state DISABLED,
    count 0, ...); [console.log(this)] under [debug] changes nothing. *)
Definition constructor (element : HTMLElement) (opts : Options) (w : Window)
  : result Page :=
  match dataset_counter element with
  | None => Throws TypeError
  | Some directive =>
      let data := split ":"%char directive in
      match segment data 0, segment data 1 with
      | Some d0, Some d1 =>
          let dots1 := after_first "."%char d1 in
          let start_ :=
            match after_first "."%char d0 with
            | Some _ => parseFloat d0
            | None => parseInt d0
            end in
          let target_ :=
            match dots1 with
            | Some _ => parseFloat d1
            | None => parseInt d1
            end in
          let duration_ :=
            1000 * match segment data 2 with
                   | Some d2 => parseFloat d2
                   | None => 1.5
                   end in
          let precision_ :=
            match dots1 with
            | Some digits => of_nat (utf16_length digits)
            | None => 0
            end in
          let increment_ :=
            if gt target_ 20 then 1 else if gt target_ 10 then 0.1 else 0.01 in
          let debug_ :=
            match opt_debug opts with
            | Some (DebugBoolean b) => b
            | Some (DebugNumber x) => negb (falsy x)
            | None => false
            end in
          let language_ :=
            match opt_language opts with
            | Some l => l
            | None => "en-US"
            end in
          let limit_ :=
            match opt_limit opts with Some l => l | None => 0 end in
          let precision_ :=
            match opt_precision opts with
            | Some d => d
            | None => precision_
            end in
          let format_ := format_options (segment data 3) precision_ in
          if NumberFormat_accepts language_ format_ then
            let this :=
              {| debug := debug_; language := language_; node := element;
                 count := 0; start := start_; current := Num start_;
                 target := target_; increment := increment_;
                 limit := limit_; precision := precision_;
                 duration := duration_; state := ANIM_DISABLED;
                 timestamp := 0;
                 formatter := {| locale := language_; options := format_ |} |} in
            Returns (enable w {| self := this; scroll_listener := false;
                                 animation_frames := 0 |})
          else Throws RangeError
      | _, _ => Throws TypeError
      end
  end.

(** ** The page between calls *)

(** A scroll event reaches [animateOnScroll] while it is a listener. *)
Definition scroll_event (w : Window) (p : Page) : Page :=
  if scroll_listener p then animateOnScroll w p else p.

(** The next animation frame runs one requested call of [animate]. *)
Definition animation_frame (t : number) (w : Window) (p : Page) : Page :=
  match animation_frames p with
  | O => p
  | S n =>
      animate t w {| self := self p; scroll_listener := scroll_listener p;
                     animation_frames := n |}
  end.

(** What can happen to an instance: the browser delivers a scroll event
    or an animation frame, or a caller invokes a method. *)
Inductive event :=
| Scroll (w : Window)
| Frame (t : number) (w : Window)
| CallAnimate (t : number) (w : Window)
| CallAnimateOnScroll (w : Window)
| CallReset
| CallEnable (w : Window)
| CallDisable.

Definition step (e : event) (p : Page) : Page :=
  match e with
  | Scroll w => scroll_event w p
  | Frame t w => animation_frame t w p
  | CallAnimate t w => animate t w p
  | CallAnimateOnScroll w => animateOnScroll w p
  | CallReset => on_self reset p
  | CallEnable w => enable w p
  | CallDisable => disable p
  end.

Definition run (es : list event) (p : Page) : Page :=
  fold_left (fun q e => step e q) es p.

(** The pages an instance can be found in: built by the constructor,
    then driven by events. *)
Inductive reachable : Page -> Prop :=
| reach_new element opts w p :
    constructor element opts w = Returns p -> reachable p
| reach_step e p :
    reachable p -> reachable (step e p).

(** ** Vocabulary of the specification *)

(** The node shows the formatted target. *)
Definition shows_target (c : Counter) : Prop :=
  textContent (node c) = format (formatter c) (target c).

(** The fields no method assigns after construction. *)
Definition settings (c : Counter)
  : number * number * number * number * number * NumberFormat :=
  (start c, target c, increment c, limit c, duration c, formatter c).

(** The number a segment of the directive is read as: with a decimal
    point by [parseFloat], without one by [parseInt]. *)
Definition parsed (d : string) : number :=
  match after_first "."%char d with
  | Some _ => parseFloat d
  | None => parseInt d
  end.

(** The locale and the fraction digits the constructor builds the
    formatter with: the options when given, else [en-US] and the digits
    after the decimal point of the target segment. *)
Definition language_of (opts : Options) : string :=
  match opt_language opts with
  | Some l => l
  | None => "en-US"
  end.

Definition digits_of (opts : Options) (d1 : string) : number :=
  match opt_precision opts with
  | Some d => d
  | None =>
      match after_first "."%char d1 with
      | Some f => of_nat (utf16_length f)
      | None => 0
      end
  end.

(** The events the browser delivers, as opposed to calls of methods. *)
Definition delivered (e : event) : bool :=
  match e with
  | Scroll _ | Frame _ _ => true
  | _ => false
  end.

(** Animation frames delivered one after the other, each with its time
    and the window it finds. *)
Definition frames_of (ts : list (number * Window)) : list event :=
  map (fun f => Frame (fst f) (snd f)) ts.

(** What holds of every page of an instance: the node shows the
    formatted target unless an animation is under way and still below
    the target, and a disabled instance listens to no scroll event. *)
Definition consistent (p : Page) : Prop :=
  match state (self p) with
  | ANIM_ACTIVE =>
      ge (ToNumber (current (self p))) (target (self p)) = true ->
      shows_target (self p)
  | ANIM_DISABLED => shows_target (self p) /\ scroll_listener p = false
  | _ => shows_target (self p)
  end.

(** The test [animateOnScroll] makes before it resets or starts:
    [!this.limit || this.count < this.limit]. *)
Definition under_limit (c : Counter) : bool :=
  falsy (limit c) || lt (count c) (limit c).

(** Events the browser delivers while the node is out of view. *)
Definition offscreen (e : event) : bool :=
  match e with
  | Scroll w => negb (inView w)
  | Frame _ _ => true
  | _ => false
  end.

(** How [current] and [timestamp] go with the state: the formatted
    target and 0 while READY or DISABLED, a number while ACTIVE, a number
    that has reached the target once COMPLETE. *)
Definition settled (p : Page) : Prop :=
  let c := self p in
  match state c with
  | ANIM_READY | ANIM_DISABLED =>
      current c = Str (format (formatter c) (target c)) /\ timestamp c = 0
  | ANIM_ACTIVE => exists x, current c = Num x
  | ANIM_COMPLETE => exists x, current c = Num x /\ ge x (target c) = true
  end.

(** The limit test holds of a READY page, or no frame is pending. *)
Definition gated (p : Page) : Prop :=
  state (self p) = ANIM_READY ->
  under_limit (self p) = true \/ animation_frames p = O.

(** An options bag [Intl.NumberFormat] can read: one of the four styles,
    a currency exactly with the currency style, a unit exactly with the
    unit style. *)
Definition coherent (o : NumberFormatOptions) : Prop :=
  match currency o, unit o with
  | None, None => style o = "decimal" \/ style o = "percent"
  | Some _, None => style o = "currency"
  | None, Some _ => style o = "unit"
  | Some _, Some _ => False
  end.

End Methods.
End AnimatedCounter.

(* ================================================================== *)
(** * A host to run examples in *)
(* ================================================================== *)

(** An [Intl.NumberFormat] for concrete runs.  It takes any locale and
    style, refuses fraction digits outside 0..100 as the real one does,
    and prints every number the way the [en-US] decimal style does:
    digits grouped by three, the fraction rounded half away from zero. *)
Module ExampleHost.
Import JS Browser.
Local Open Scope Z_scope.

(** The integer part of a number, for numbers that are not negative. *)
Definition floor (x : number) : Z :=
  match Prim2SF x with
  | S754_finite false m (Zpos k) => Z.pos m * Z.pow_pos 2 k
  | S754_finite false m (Zneg k) => Z.pos m / Z.pow_pos 2 k
  | S754_finite false m Z0 => Z.pos m
  | _ => 0
  end.

Definition fraction_digits (x : number) : option nat :=
  if (PrimFloat.leb 0 x && PrimFloat.leb x 100)%bool
  then Some (Z.to_nat (floor x)) else None.

(** [|x| * 10^p] rounded to the nearest integer, half away from zero. *)
Definition scaled (x : number) (p : nat) : Z :=
  match Prim2SF x with
  | S754_finite _ m (Zneg k) =>
      (2 * Z.pos m * 10 ^ Z.of_nat p + Z.pow_pos 2 k) / Z.pow_pos 2 (Pos.succ k)
  | S754_finite _ m e => Z.pos m * 2 ^ e * 10 ^ Z.of_nat p
  | _ => 0
  end.

Fixpoint group (l : list ascii) (k : nat) : list ascii :=
  match l with
  | [] => []
  | d :: r =>
      match k with
      | 3%nat => ","%char :: d :: group r 1
      | _ => d :: group r (S k)
      end
  end.

Fixpoint pad (n : nat) (l : list ascii) : list ascii :=
  match n with
  | O => l
  | S n' => match l with
            | [] => "0"%char :: pad n' []
            | d :: r => d :: pad n' r
            end
  end.

Definition render (x : number) (p : nat) : string :=
  match Prim2SF x with
  | S754_nan => "NaN"
  | S754_infinity s => if s then "-∞" else "∞"
  | _ =>
      let digits :=
        rev (list_ascii_of_string
               (DecimalString.NilZero.string_of_uint
                  (N.to_uint (Z.to_N (scaled x p))))) in
      let digits := pad (S p) digits in
      let int_part := rev (group (skipn p digits) 0) in
      let frac_part := rev (firstn p digits) in
      string_of_list_ascii
        ((if get_sign x then ["-"%char] else [])
         ++ int_part
         ++ match frac_part with [] => [] | _ => "."%char :: frac_part end)
  end%string.

#[export] Instance intl : Intl := {|
  NumberFormat_accepts _ o :=
    match fraction_digits (minimumFractionDigits o) with
    | Some _ => true
    | None => false
    end;
  NumberFormat_format _ o x :=
    match fraction_digits (minimumFractionDigits o) with
    | Some p => render x p
    | None => EmptyString
    end
|}.

(** A window in which the node is in view, the timeline at [now]. *)
Definition in_view (now : number) : Window :=
  {| boundingClientRect :=
       {| rect_width := 100; rect_height := 20; rect_top := 10;
          rect_left := 10; rect_bottom := 30; rect_right := 110 |};
     innerWidth := 1280; innerHeight := 720; currentTime := now |}%float.

(** A window in which the node is below the fold. *)
Definition out_of_view (now : number) : Window :=
  {| boundingClientRect :=
       {| rect_width := 100; rect_height := 20; rect_top := 2000;
          rect_left := 10; rect_bottom := 2020; rect_right := 110 |};
     innerWidth := 1280; innerHeight := 720; currentTime := now |}%float.

(** An element carrying the directive [d], with no text yet. *)
Definition element (d : string) : HTMLElement :=
  {| dataset_counter := Some d; textContent := EmptyString |}.

(** The options [{limit: 1}]. *)
Definition limit_once : AnimatedCounter.Options :=
  {| AnimatedCounter.opt_debug := None;
     AnimatedCounter.opt_language := None;
     AnimatedCounter.opt_limit := Some 1%float;
     AnimatedCounter.opt_precision := None |}.

End ExampleHost.

(* ================================================================== *)
(** * Verification *)
(* ================================================================== *)

Import JS Browser AnimatedCounter.
Local Open Scope string_scope.
Local Open Scope float_scope.

(** ** Comparisons of numbers *)

Lemma SFcompare_swap (a b : spec_float) :
  SFcompare b a = option_map CompOpp (SFcompare a b).
Proof.
  destruct a as [sa | sa | | sa ma ea], b as [sb | sb | | sb mb eb];
    simpl; try reflexivity;
    try (destruct sa; reflexivity); try (destruct sb; reflexivity);
    try (destruct sa, sb; reflexivity).
  destruct sa, sb; simpl; try reflexivity;
    rewrite (Z.compare_antisym ea eb);
    destruct (ea ?= eb)%Z; simpl; try reflexivity;
    rewrite (Pos.compare_cont_antisym ma mb Eq); simpl;
    try rewrite CompOpp_involutive; reflexivity.
Qed.

(** [a >= b] rules out [a < b]. *)
Lemma ge_not_lt (a b : number) : ge a b = true -> lt a b = false.
Proof.
  unfold ge, lt. rewrite leb_spec, ltb_spec. unfold SFleb, SFltb.
  rewrite (SFcompare_swap (Prim2SF a) (Prim2SF b)).
  destruct (SFcompare (Prim2SF a) (Prim2SF b)) as [[ | | ] | ];
    simpl; congruence.
Qed.

(** A number above zero is truthy. *)
Lemma gt_zero_truthy (a : number) : gt a 0 = true -> falsy a = false.
Proof.
  unfold gt, falsy, is_zero, is_nan.
  rewrite ltb_spec, !FloatAxioms.eqb_spec. unfold SFltb, SFeqb.
  change (Prim2SF 0) with (S754_zero false).
  change (Prim2SF PrimFloat.zero) with (S754_zero false).
  destruct (Prim2SF a) as [s | s | | s m e]; simpl; try congruence;
    destruct s; simpl; try congruence; intros _.
  rewrite Z.compare_refl.
  change (PosDef.Pos.compare_cont Eq m m) with (Pos.compare m m).
  rewrite Pos.compare_refl. reflexivity.
Qed.

(** Above a number that is not negative is above zero. *)
Lemma gt_nonneg (e d : number) :
  ge d 0 = true -> gt e d = true -> gt e 0 = true.
Proof.
  unfold ge, gt. rewrite leb_spec, !ltb_spec. unfold SFleb, SFltb.
  change (Prim2SF 0) with (S754_zero false).
  destruct (Prim2SF d) as [sd | sd | | sd md ed],
           (Prim2SF e) as [se | se | | se me ee];
    simpl; try congruence;
    try (destruct sd; simpl; congruence);
    try (destruct se; simpl; congruence);
    destruct sd, se; simpl; congruence.
Qed.

(** ** Each method keeps the page consistent *)

Section Invariant.
Context `{Intl}.

Lemma reset_shows (c : Counter) : shows_target (reset c).
Proof. reflexivity. Qed.

Lemma frame_state (t : number) (c : Counter) : state (frame t c) = state c.
Proof. unfold frame. destruct (gt _ 0); reflexivity. Qed.

Lemma frame_settings (t : number) (c : Counter) :
  settings (frame t c) = settings c.
Proof. unfold frame. destruct (gt _ 0); reflexivity. Qed.

Lemma settings_target (c c' : Counter) :
  settings c' = settings c ->
  target c' = target c /\ formatter c' = formatter c.
Proof. unfold settings. intros E. injection E as _ Ht _ _ _ Hf. tauto. Qed.

(** After a frame, a [current] that has reached the target is the
    target itself, and it is what the node shows. *)
Lemma frame_shows (t : number) (c : Counter) :
  (ge (ToNumber (current c)) (target c) = true -> shows_target c) ->
  ge (ToNumber (current (frame t c))) (target (frame t c)) = true ->
  shows_target (frame t c).
Proof.
  intros Hc. unfold frame.
  destruct (gt (t - timestamp c) 0); [ | exact Hc ].
  unfold shows_target; simpl.
  set (cur := Math_round _ * increment c).
  destruct (gt (t - timestamp c) (duration c)); [ reflexivity | ].
  destruct (ge cur (target c)) eqn:Hge; [ reflexivity | ].
  intros Hge'. rewrite Hge in Hge'. discriminate.
Qed.

Lemma animate_consistent (t : number) (w : Window) (p : Page) :
  consistent p -> consistent (animate t w p).
Proof.
  unfold consistent, animate.
  destruct (state (self p)) eqn:Hs; try (rewrite Hs; tauto).
  - (* READY: the animation starts, the node is left as it was *)
    simpl. intros Hp _. exact Hp.
  - (* ACTIVE: one frame *)
    intros Hp.
    pose proof (frame_state t (self p)) as Hst.
    pose proof (frame_shows t (self p) Hp) as Hf.
    simpl.
    destruct (ge (ToNumber (current (frame t (self p))))
                 (target (frame t (self p)))) eqn:Hge; simpl.
    + apply Hf. reflexivity.
    + rewrite Hst, Hs. intros Hge'. rewrite Hge' in Hge. discriminate.
Qed.

Lemma reset_consistent (p : Page) : consistent (on_self reset p).
Proof. reflexivity. Qed.

Lemma disable_consistent (p : Page) : consistent (disable p).
Proof. split; reflexivity. Qed.

Lemma addEventListener_consistent (p : Page) :
  state (self p) <> ANIM_DISABLED ->
  consistent p -> consistent (addEventListener p).
Proof.
  unfold consistent. simpl. destruct (state (self p)); tauto.
Qed.

Lemma animate_leaves_disabled (t : number) (w : Window) (p : Page) :
  state (self p) <> ANIM_DISABLED ->
  state (self (animate t w p)) <> ANIM_DISABLED.
Proof.
  unfold animate. destruct (state (self p)) eqn:Hs; try (rewrite Hs; tauto).
  - simpl. discriminate.
  - intros _. pose proof (frame_state t (self p)) as Hst.
    simpl.
    destruct (ge (ToNumber (current (frame t (self p))))
                 (target (frame t (self p)))); simpl; [ discriminate | ].
    rewrite Hst, Hs. discriminate.
Qed.

Lemma enable_consistent (w : Window) (p : Page) : consistent (enable w p).
Proof.
  unfold enable. apply addEventListener_consistent.
  - destruct (inView w).
    + apply animate_leaves_disabled. simpl. discriminate.
    + simpl. discriminate.
  - destruct (inView w).
    + apply animate_consistent, reset_consistent.
    + apply reset_consistent.
Qed.

Lemma animateOnScroll_consistent (w : Window) (p : Page) :
  consistent p -> consistent (animateOnScroll w p).
Proof.
  intros Hp. unfold animateOnScroll.
  destruct (falsy _ || lt _ _).
  - destruct (negb (inView w)); [ apply reset_consistent | ].
    destruct (state_eqb _ _); [ apply animate_consistent | ]; exact Hp.
  - destruct (negb _); [ apply disable_consistent | exact Hp ].
Qed.

Lemma step_consistent (e : event) (p : Page) :
  consistent p -> consistent (step e p).
Proof.
  intros Hp. destruct e as [w | t w | t w | w | | w | ]; simpl.
  - unfold scroll_event. destruct (scroll_listener p); [ | exact Hp ].
    apply animateOnScroll_consistent, Hp.
  - unfold animation_frame. destruct (animation_frames p); [ exact Hp | ].
    apply animate_consistent. exact Hp.
  - apply animate_consistent, Hp.
  - apply animateOnScroll_consistent, Hp.
  - apply reset_consistent.
  - apply enable_consistent.
  - apply disable_consistent.
Qed.

Lemma constructor_consistent element opts w p :
  constructor element opts w = Returns p -> consistent p.
Proof.
  unfold constructor.
  destruct (dataset_counter element); [ | discriminate ].
  destruct (segment _ 0); [ | discriminate ].
  destruct (segment _ 1); [ | discriminate ].
  destruct (NumberFormat_accepts _ _); [ | discriminate ].
  intros Hp. injection Hp as <-. apply enable_consistent.
Qed.

Lemma reachable_consistent (p : Page) : reachable p -> consistent p.
Proof.
  induction 1 as [element opts w p Hnew | e p _ IH].
  - exact (constructor_consistent _ _ _ _ Hnew).
  - apply step_consistent, IH.
Qed.

Lemma run_reachable (es : list event) (p : Page) :
  reachable p -> reachable (run es p).
Proof.
  revert p. induction es as [ | e es IH]; intros p Hp; simpl.
  - exact Hp.
  - apply IH. apply reach_step. exact Hp.
Qed.

Lemma animate_settings (t : number) (w : Window) (p : Page) :
  settings (self (animate t w p)) = settings (self p).
Proof.
  unfold animate. destruct (state (self p)); try reflexivity.
  simpl.
  destruct (ge (ToNumber (current (frame t (self p))))
               (target (frame t (self p)))); simpl;
    apply frame_settings.
Qed.

Lemma enable_settings (w : Window) (p : Page) :
  settings (self (enable w p)) = settings (self p).
Proof.
  unfold enable. simpl. destruct (inView w); [ | reflexivity ].
  apply (animate_settings nan w (on_self reset p)).
Qed.

Lemma animateOnScroll_settings (w : Window) (p : Page) :
  settings (self (animateOnScroll w p)) = settings (self p).
Proof.
  unfold animateOnScroll. destruct (falsy _ || lt _ _).
  - destruct (negb (inView w)); [ reflexivity | ].
    destruct (state_eqb _ _); [ apply animate_settings | reflexivity ].
  - destruct (negb _); reflexivity.
Qed.

Lemma step_settings (e : event) (p : Page) :
  settings (self (step e p)) = settings (self p).
Proof.
  destruct e as [w | t w | t w | w | | w | ]; simpl.
  - unfold scroll_event. destruct (scroll_listener p); [ | reflexivity ].
    apply animateOnScroll_settings.
  - unfold animation_frame. destruct (animation_frames p); [ reflexivity | ].
    apply (animate_settings t w
             {| self := self p; scroll_listener := scroll_listener p;
                animation_frames := n |}).
  - apply animate_settings.
  - apply animateOnScroll_settings.
  - reflexivity.
  - apply enable_settings.
  - reflexivity.
Qed.

Lemma run_settings (es : list event) (p : Page) :
  settings (self (run es p)) = settings (self p).
Proof.
  revert p. induction es as [ | e es IH]; intros p; simpl.
  - reflexivity.
  - rewrite (IH (step e p)). apply step_settings.
Qed.

End Invariant.

(** ** reset *)

Section Reset.
Context `{Intl}.

(** C5. From any state, [reset()] leaves [node.textContent] equal to the
    formatter applied to the target, sets [timestamp] to 0 and leaves the
    state READY; target and formatter are the ones the instance had. *)
Theorem reset_shows_target (c : Counter) :
  textContent (node (reset c)) = format (formatter c) (target c)
  /\ timestamp (reset c) = 0
  /\ state (reset c) = ANIM_READY
  /\ settings (reset c) = settings c.
Proof. repeat split. Qed.

End Reset.

(** ** Runs of the animation *)

Section Runs.
Context `{Intl}.

(** C2. Whatever page an instance is in, a sequence of animation frames
    that ends in the state COMPLETE leaves in [node.textContent] the
    formatter applied to the target itself.  And a frame of an ACTIVE
    instance that comes after the duration has elapsed forces [current]
    to the target before it writes, so that it writes the formatted
    target: the write sits under [elapsed > 0], which holds as soon as
    the duration is not negative. *)
Theorem completed_run_shows_target (p : Page) (ts : list (number * Window)) :
  reachable p ->
  let q := run (frames_of ts) p in
  (state (self q) = ANIM_COMPLETE ->
   textContent (node (self q)) = format (formatter (self p)) (target (self p)))
  /\ (forall t w,
        state (self q) = ANIM_ACTIVE ->
        gt (t - timestamp (self q)) (duration (self q)) = true ->
        gt (t - timestamp (self q)) 0 = true
        \/ ge (duration (self q)) 0 = true ->
        current (self (animate t w q)) = Num (target (self p))
        /\ textContent (node (self (animate t w q)))
           = format (formatter (self p)) (target (self p))).
Proof.
  intros Hp q.
  destruct (settings_target _ _ (run_settings (frames_of ts) p)) as [Ht Hf].
  fold q in Ht, Hf.
  pose proof (reachable_consistent q (run_reachable _ _ Hp)) as Hq.
  clearbody q. split.
  - intros Hdone.
    unfold consistent in Hq. rewrite Hdone in Hq.
    rewrite <- Ht, <- Hf. exact Hq.
  - intros t w Hact Hlate Hwrites.
    assert (Hpos : gt (t - timestamp (self q)) 0 = true).
    { destruct Hwrites as [Hpos | Hdur]; [ exact Hpos | ].
      exact (gt_nonneg _ _ Hdur Hlate). }
    rewrite <- Ht, <- Hf. unfold animate. rewrite Hact. simpl.
    assert (Hfr : frame t (self q)
                  = set_textContent (format (formatter (self q)) (target (self q)))
                      (set_current (Num (target (self q))) (self q))).
    { unfold frame. rewrite Hpos, Hlate. reflexivity. }
    destruct (ge (ToNumber (current (frame t (self q))))
                 (target (frame t (self q)))); simpl;
      rewrite Hfr; split; reflexivity.
Qed.

End Runs.

(** ** A disabled instance *)

Section Disabled.
Context `{Intl}.

Lemma delivered_to_disabled (e : event) (p : Page) :
  delivered e = true ->
  state (self p) = ANIM_DISABLED -> scroll_listener p = false ->
  self (step e p) = self p /\ scroll_listener (step e p) = false.
Proof.
  intros He Hs Hl. destruct e as [w | t w | t w | w | | w | ];
    try discriminate He; simpl.
  - unfold scroll_event. rewrite Hl. tauto.
  - unfold animation_frame. destruct (animation_frames p); [ tauto | ].
    unfold animate. simpl. rewrite Hs. simpl. tauto.
Qed.

(** C9. Once the state is DISABLED, no scroll event and no animation
    frame delivered afterwards changes [node.textContent]: the instance
    stays as it is, DISABLED.  [animate] returns at once in that state,
    and [disable] has removed the scroll listener. *)
Theorem disabled_stays_silent (p : Page) (es : list event) :
  reachable p ->
  state (self p) = ANIM_DISABLED ->
  forallb delivered es = true ->
  textContent (node (self (run es p))) = textContent (node (self p))
  /\ state (self (run es p)) = ANIM_DISABLED
  /\ (forall t w, animate t w p = p)
  /\ scroll_listener p = false
  /\ (forall q, scroll_listener (disable q) = false).
Proof.
  intros Hp Hs Hes.
  pose proof (reachable_consistent p Hp) as Hc.
  unfold consistent in Hc. rewrite Hs in Hc. destruct Hc as [_ Hl].
  assert (Hrun : self (run es p) = self p).
  { clear Hp. revert p Hs Hl. induction es as [ | e es IH]; intros p Hs Hl.
    - reflexivity.
    - simpl in Hes. apply andb_prop in Hes. destruct Hes as [He Hes].
      destruct (delivered_to_disabled e p He Hs Hl) as [Hself Hl'].
      simpl. rewrite (IH Hes (step e p)); [ exact Hself | | exact Hl' ].
      rewrite Hself. exact Hs. }
  rewrite Hrun. repeat split; try assumption.
  intros t w. unfold animate. rewrite Hs. reflexivity.
Qed.

End Disabled.

(** ** The scroll handler and the limit *)

Section ScrollLimit.
Context `{Intl}.

Lemma animate_listener (t : number) (w : Window) (p : Page) :
  scroll_listener (animate t w p) = scroll_listener p.
Proof.
  unfold animate. destruct (state (self p)); try reflexivity.
  simpl.
  destruct (ge (ToNumber (current (frame t (self p))))
               (target (frame t (self p)))); reflexivity.
Qed.

(** C8. When [animateOnScroll] handles a scroll event while the limit is
    above 0, the count has reached it and the state is not ACTIVE, it
    calls [disable]: the state becomes DISABLED and the scroll listener
    is removed.  While the limit is 0 or the count is below it, it
    resets, starts the animation or does nothing: [disable] is not
    called, the listener stays as it was and the state does not become
    DISABLED. *)
Theorem animateOnScroll_limit (w : Window) (p : Page) :
  let c := self p in
  let q := animateOnScroll w p in
  (gt (limit c) 0 = true -> ge (count c) (limit c) = true ->
   state c <> ANIM_ACTIVE ->
   q = disable p /\ state (self q) = ANIM_DISABLED /\ scroll_listener q = false)
  /\ (is_zero (limit c) = true \/ lt (count c) (limit c) = true ->
      (q = on_self reset p \/ q = animate nan w p \/ q = p)
      /\ scroll_listener q = scroll_listener p
      /\ (state (self q) = ANIM_DISABLED -> state c = ANIM_DISABLED)).
Proof.
  intros c q. subst c q. unfold animateOnScroll. split.
  - intros Hlimit Hcount Hstate.
    rewrite (gt_zero_truthy _ Hlimit), (ge_not_lt _ _ Hcount). simpl.
    destruct (state (self p)); simpl; try contradiction; repeat split.
  - intros Hopen.
    assert (Hcond : falsy (limit (self p)) || lt (count (self p)) (limit (self p)) = true).
    { unfold falsy. destruct Hopen as [-> | ->]; [ reflexivity | ].
      apply orb_true_r. }
    rewrite Hcond.
    destruct (negb (inView w)).
    + repeat split; [ tauto | discriminate ].
    + destruct (state (self p)) eqn:Hs; simpl.
      * repeat split; tauto.
      * repeat split; [ tauto | apply animate_listener | ].
        unfold animate. rewrite Hs. simpl. discriminate.
      * repeat split; [ tauto | congruence ].
      * repeat split; [ tauto | congruence ].
Qed.

End ScrollLimit.

(** ** enable *)

Section Enable.
Context `{Intl}.

(** C10. [enable()], in any state, first resets (the state becomes READY
    and the node shows the formatted target), starts the animation at
    once if the node is in view, and registers the scroll listener.
    Neither [limit] nor [count] is consulted: an instance that differs
    only in them ends in the same state, so a DISABLED or COMPLETE
    instance is started again. *)
Theorem enable_restarts (w : Window) (p : Page) :
  let r := on_self reset p in
  let q := enable w p in
  q = addEventListener (if inView w then animate nan w r else r)
  /\ state (self r) = ANIM_READY
  /\ textContent (node (self r)) = format (formatter (self p)) (target (self p))
  /\ textContent (node (self q)) = format (formatter (self p)) (target (self p))
  /\ scroll_listener q = true
  /\ state (self q) <> ANIM_DISABLED
  /\ (if inView w
      then state (self q) = ANIM_ACTIVE
           /\ current (self q) = Num (start (self p))
           /\ timestamp (self q) = currentTime w
           /\ count (self q) = count (self p) + 1
           /\ animation_frames q = S (animation_frames p)
      else state (self q) = ANIM_READY
           /\ count (self q) = count (self p)
           /\ animation_frames q = animation_frames p)
  /\ (forall l k,
        let q' := enable w (on_self (fun c => set_limit l (set_count k c)) p) in
        state (self q') = state (self q)
        /\ current (self q') = current (self q)
        /\ timestamp (self q') = timestamp (self q)
        /\ node (self q') = node (self q)
        /\ scroll_listener q' = scroll_listener q
        /\ animation_frames q' = animation_frames q).
Proof.
  intros r q. subst r q. unfold enable.
  destruct (inView w); simpl; repeat split; discriminate.
Qed.

End Enable.

(** ** The constructor *)

Section Constructor.
Context `{Intl}.

Lemma is_nan_eq (x : number) : is_nan x = true -> x = nan.
Proof.
  intros Hx. apply Prim2SF_inj. unfold Prim2SF at 1. rewrite Hx. reflexivity.
Qed.

Lemma enable_duration (w : Window) (p : Page) :
  start (self (enable w p)) = start (self p)
  /\ target (self (enable w p)) = target (self p)
  /\ duration (self (enable w p)) = duration (self p).
Proof.
  pose proof (enable_settings w p) as E. unfold settings in E.
  injection E as Hs Ht _ _ Hd _. tauto.
Qed.

(** C6, as the code has it.  The constructor throws a TypeError when the
    attribute is missing or the directive has no second segment, and a
    RangeError when [Intl.NumberFormat] refuses the locale or the
    options; in every other case it returns, and start and target are
    what [parseInt] or [parseFloat] made of their segments, NaN
    included. *)
Theorem constructor_failures (element : HTMLElement) (opts : Options)
    (w : Window) :
  match dataset_counter element with
  | None => constructor element opts w = Throws TypeError
  | Some d =>
      let data := split ":" d in
      match segment data 0, segment data 1 with
      | Some d0, Some d1 =>
          if NumberFormat_accepts (language_of opts)
               (format_options (segment data 3) (digits_of opts d1))
          then exists p, constructor element opts w = Returns p
                         /\ start (self p) = parsed d0
                         /\ target (self p) = parsed d1
          else constructor element opts w = Throws RangeError
      | _, _ => constructor element opts w = Throws TypeError
      end
  end.
Proof.
  unfold constructor, language_of, digits_of, parsed.
  destruct (dataset_counter element) as [d | ]; [ | reflexivity ].
  cbv zeta.
  destruct (segment (split ":" d) 0) as [d0 | ]; [ | reflexivity ].
  destruct (segment (split ":" d) 1) as [d1 | ]; [ | reflexivity ].
  destruct (NumberFormat_accepts _ _); [ | reflexivity ].
  eexists. split; [ reflexivity | ].
  match goal with
  | |- start (self (enable w ?p0)) = _ /\ _ =>
      destruct (enable_duration w p0) as (-> & -> & _)
  end.
  split; reflexivity.
Qed.

(** C7, as the code has it.  Whatever the duration segment holds,
    construction does not fail on its account.  Without the segment the
    duration is the default, 1500 ms; with it the duration is 1000 times
    what [parseFloat] reads, and that is NaN, not the default, when the
    segment is not a number. *)
Theorem duration_of_directive (element : HTMLElement) (opts : Options)
    (w : Window) (d d0 d1 : string) :
  dataset_counter element = Some d ->
  segment (split ":" d) 0 = Some d0 ->
  segment (split ":" d) 1 = Some d1 ->
  NumberFormat_accepts (language_of opts)
    (format_options (segment (split ":" d) 3) (digits_of opts d1)) = true ->
  exists p,
    constructor element opts w = Returns p
    /\ match segment (split ":" d) 2 with
       | None => duration (self p) = 1500
       | Some d2 =>
           duration (self p) = 1000 * parseFloat d2
           /\ (is_nan (parseFloat d2) = true -> duration (self p) = nan)
       end.
Proof.
  intros Hd H0 H1 Hok.
  unfold constructor. rewrite Hd. cbv zeta. rewrite H0, H1.
  fold (language_of opts). fold (digits_of opts d1).
  rewrite Hok.
  eexists. split; [ reflexivity | ].
  match goal with
  | |- context [duration (self (enable w ?p0))] =>
      destruct (enable_duration w p0) as (_ & _ & ->)
  end.
  destruct (segment (split ":" d) 2) as [d2 | ]; simpl.
  - split; [ reflexivity | ].
    intros Hnan. rewrite (is_nan_eq _ Hnan). reflexivity.
  - reflexivity.
Qed.

End Constructor.

(* ================================================================== *)
(** * Concrete runs *)
(* ================================================================== *)

Section Examples.
Import ExampleHost.

(** C1. [steps()] on the directive [2:15] (increment 0.1): the code
    returns [target - start / increment = 15 - 20 = -5], where the
    number of increments between start and target is
    [(target - start) / increment = 130]. *)
Theorem steps_precedence :
  exists p,
    constructor (element "2:15") no_options (out_of_view 0) = Returns p
    /\ start (self p) = 2 /\ target (self p) = 15
    /\ increment (self p) = 0.1
    /\ steps (self p) = -5
    /\ (target (self p) - start (self p)) / increment (self p) = 130.
Proof. eexists. repeat split. Qed.

(** C3. The directive [2:15], in view at construction, with frames at
    300 ms and 600 ms: both find and leave the instance ACTIVE, and
    [current] goes from -1 down to -2. *)
Theorem current_decreases_between_frames :
  exists p,
    constructor (element "2:15") no_options (in_view 0) = Returns p
    /\ ge (target (self p)) (start (self p)) = true
    /\ steps (self p) = -5
    /\ let p1 := step (Frame 300 (in_view 300)) p in
       let p2 := step (Frame 600 (in_view 600)) p1 in
       state (self p) = ANIM_ACTIVE
       /\ state (self p1) = ANIM_ACTIVE /\ current (self p1) = Num (-1)
       /\ state (self p2) = ANIM_ACTIVE /\ current (self p2) = Num (-2)
       /\ lt (-2) (-1) = true.
Proof. eexists. repeat split. Qed.

(** C4. The directive [50:100], in view at construction, with a frame
    at 750 ms, half the duration: [current] is 25, below the start, and
    the node shows 25.  After [reset], [current] is no number but the
    formatted text; for the target 1000 that text does not read as a
    number either. *)
Theorem current_below_start :
  exists p,
    constructor (element "50:100") no_options (in_view 0) = Returns p
    /\ start (self p) = 50 /\ target (self p) = 100
    /\ ge (target (self p)) (start (self p)) = true
    /\ let p1 := step (Frame 750 (in_view 750)) p in
       state (self p1) = ANIM_ACTIVE
       /\ current (self p1) = Num 25
       /\ lt 25 (start (self p1)) = true
       /\ textContent (node (self p1)) = "25"
       /\ current (reset (self p1)) = Str "100"
    /\ exists p',
         constructor (element "0:1000") no_options (out_of_view 0) = Returns p'
         /\ current (self p') = Str "1,000"
         /\ is_nan (ToNumber (current (self p'))) = true.
Proof. eexists. repeat split. eexists. repeat split. Qed.

(** C6, the claim as stated fails: on the directive [abc:xyz], where
    neither segment is a number, the constructor returns an instance,
    READY, whose start and target are NaN and whose node shows NaN. *)
Lemma unparseable_segments_construct :
  exists p,
    constructor (element "abc:xyz") no_options (out_of_view 0) = Returns p
    /\ is_nan (parsed "abc") = true /\ is_nan (parsed "xyz") = true
    /\ start (self p) = nan /\ target (self p) = nan
    /\ state (self p) = ANIM_READY
    /\ textContent (node (self p)) = "NaN".
Proof. eexists. repeat split. Qed.

(** C7, the claim as stated fails: on the directive [0:100:abc] the
    constructor returns an instance whose duration is NaN, not 1500;
    its animation writes NaN at every frame and never completes. *)
Lemma malformed_duration_is_kept :
  exists p,
    constructor (element "0:100:abc") no_options (in_view 0) = Returns p
    /\ is_nan (parseFloat "abc") = true
    /\ duration (self p) = nan
    /\ (duration (self p) =? 1500) = false
    /\ let q := run (frames_of [(500, in_view 500); (5000, in_view 5000)]) p in
       state (self q) = ANIM_ACTIVE /\ textContent (node (self q)) = "NaN".
Proof. eexists. repeat split. Qed.

(** The directive [0:100:1], in view at construction: the frame at
    500 ms writes 50, the frame at 1001 ms, past the duration, completes
    the run on the formatted target. *)
Lemma completed_run_witness :
  exists p,
    constructor (element "0:100:1") no_options (in_view 0) = Returns p
    /\ (let q := run (frames_of [(500, in_view 500); (1001, in_view 1001)]) p in
        state (self q) = ANIM_COMPLETE
        /\ textContent (node (self q)) = "100")
    /\ (let q := run (frames_of [(500, in_view 500)]) p in
        state (self q) = ANIM_ACTIVE
        /\ current (self q) = Num 50
        /\ current (self (animate 1001 (in_view 1001) q)) = Num 100).
Proof.
  eexists. split; [ reflexivity | ].
  match goal with
  | |- (let q := run _ ?p in _) /\ _ =>
      assert (Hp : reachable p) by
        (apply (reach_new (element "0:100:1") no_options (in_view 0));
         reflexivity);
      pose proof (completed_run_shows_target p
                    [(500, in_view 500); (1001, in_view 1001)] Hp) as H2;
      pose proof (completed_run_shows_target p [(500, in_view 500)] Hp) as H1
  end.
  cbv zeta in H1, H2. destruct H1 as [_ H1], H2 as [H2 _]. split.
  - split; [ reflexivity | ]. rewrite H2; reflexivity.
  - split; [ reflexivity | ]. split; [ reflexivity | ].
    apply (H1 1001 (in_view 1001)); [ reflexivity | reflexivity | ].
    right. reflexivity.
Defined.

(** A directive with a malformed duration and one without duration. *)
Lemma duration_of_directive_witness :
  (exists p,
     constructor (element "0:100:abc") no_options (out_of_view 0) = Returns p
     /\ duration (self p) = nan)
  /\ (exists p,
        constructor (element "0:50") no_options (out_of_view 0) = Returns p
        /\ duration (self p) = 1500).
Proof.
  split.
  - destruct (duration_of_directive (H := intl) (element "0:100:abc") no_options
                (out_of_view 0) "0:100:abc" "0" "100"
                eq_refl eq_refl eq_refl eq_refl) as (p & Hp & Hd).
    exists p. split; [ exact Hp | ].
    cbn in Hd. apply Hd. reflexivity.
  - destruct (duration_of_directive (H := intl) (element "0:50") no_options
                (out_of_view 0) "0:50" "0" "50"
                eq_refl eq_refl eq_refl eq_refl) as (p & Hp & Hd).
    exists p. split; [ exact Hp | ]. exact Hd.
Defined.

(** With the limit 1: once the first run is complete, a scroll event
    disables the instance.  Without a limit, a scroll event that finds
    the node in view starts the animation. *)
Lemma animateOnScroll_limit_witness :
  (exists p,
     constructor (element "0:100") limit_once (in_view 0) = Returns p
     /\ let p' := run (frames_of [(500, in_view 500); (1501, in_view 1501)]) p in
        state (self p') = ANIM_COMPLETE
        /\ state (self (animateOnScroll (in_view 1600) p')) = ANIM_DISABLED
        /\ scroll_listener (animateOnScroll (in_view 1600) p') = false)
  /\ (exists p,
        constructor (element "0:100") no_options (out_of_view 0) = Returns p
        /\ state (self (animateOnScroll (in_view 100) p)) = ANIM_ACTIVE
        /\ scroll_listener (animateOnScroll (in_view 100) p) = true).
Proof.
  split.
  - eexists. split; [ reflexivity | ].
    cbv zeta. split; [ reflexivity | ].
    match goal with
    | |- state (self (animateOnScroll ?w ?p')) = _ /\ _ =>
        destruct (animateOnScroll_limit w p') as [Hd _]
    end.
    cbv zeta in Hd.
    apply Hd; [ reflexivity | reflexivity | discriminate ].
  - eexists. split; [ reflexivity | ].
    match goal with
    | |- state (self (animateOnScroll ?w ?p)) = _ /\ _ =>
        destruct (animateOnScroll_limit w p) as [_ Hk]
    end.
    cbv zeta in Hk.
    destruct Hk as (_ & Hl & _); [ left; reflexivity | ].
    split; [ reflexivity | ]. rewrite Hl. reflexivity.
Defined.

(** An instance disabled in the middle of its run, a frame still
    pending: the frame and the scroll events that follow change
    nothing. *)
Lemma disabled_stays_silent_witness :
  exists p,
    constructor (element "0:100") no_options (in_view 0) = Returns p
    /\ let d := step CallDisable p in
       let q := run [Frame 500 (in_view 500); Scroll (out_of_view 600);
                     Scroll (in_view 700); Frame 2000 (in_view 2000)] d in
       animation_frames d = 1%nat
       /\ state (self q) = ANIM_DISABLED
       /\ textContent (node (self q)) = "100".
Proof.
  eexists. split; [ reflexivity | ].
  cbv zeta. split; [ reflexivity | ].
  match goal with
  | |- state (self (run ?es ?d)) = _ /\ _ =>
      assert (Hd : reachable d) by
        (apply reach_step;
         apply (reach_new (element "0:100") no_options (in_view 0));
         reflexivity);
      destruct (disabled_stays_silent d es Hd eq_refl eq_refl)
        as (Htext & Hstate & _)
  end.
  split; [ exact Hstate | ]. rewrite Htext. reflexivity.
Defined.

End Examples.

(* ================================================================== *)
(** * Further properties of the class *)
(* ================================================================== *)

(** ** More on comparisons and NaN *)

Lemma ge_refl (x : number) : is_nan x = false -> ge x x = true.
Proof.
  unfold is_nan, ge. rewrite FloatAxioms.eqb_spec, leb_spec.
  unfold SFeqb, SFleb.
  destruct (SFcompare (Prim2SF x) (Prim2SF x)) as [[ | | ] | ];
    simpl; congruence.
Qed.

Lemma gt_irrefl (x : number) : gt x x = false.
Proof.
  unfold gt. rewrite ltb_spec. unfold SFltb.
  pose proof (SFcompare_swap (Prim2SF x) (Prim2SF x)) as E.
  destruct (SFcompare (Prim2SF x) (Prim2SF x)) as [[ | | ] | ];
    simpl in E; congruence.
Qed.

Lemma not_ge_not_gt (a b : number) : ge a b = false -> gt a b = false.
Proof.
  unfold ge, gt. rewrite leb_spec, ltb_spec. unfold SFleb, SFltb.
  destruct (SFcompare (Prim2SF b) (Prim2SF a)) as [[ | | ] | ];
    simpl; congruence.
Qed.

Lemma Prim2SF_nan : Prim2SF nan = S754_nan.
Proof. reflexivity. Qed.

Lemma ge_nan_l (x : number) : ge nan x = false.
Proof.
  unfold ge. rewrite leb_spec, Prim2SF_nan. unfold SFleb.
  destruct (Prim2SF x); reflexivity.
Qed.

Lemma ge_nan_r (x : number) : ge x nan = false.
Proof. unfold ge. rewrite leb_spec, Prim2SF_nan. reflexivity. Qed.

Lemma gt_nan_r (x : number) : gt x nan = false.
Proof. unfold gt. rewrite ltb_spec, Prim2SF_nan. reflexivity. Qed.

Lemma div_nan_r (x : number) : x / nan = nan.
Proof.
  apply Prim2SF_inj. rewrite div_spec, Prim2SF_nan.
  destruct (Prim2SF x); reflexivity.
Qed.

Lemma div_nan_l (x : number) : nan / x = nan.
Proof. apply Prim2SF_inj. rewrite div_spec, Prim2SF_nan. reflexivity. Qed.

Lemma mul_nan_r (x : number) : x * nan = nan.
Proof.
  apply Prim2SF_inj. rewrite mul_spec, Prim2SF_nan.
  destruct (Prim2SF x); reflexivity.
Qed.

Lemma mul_nan_l (x : number) : nan * x = nan.
Proof. apply Prim2SF_inj. rewrite mul_spec, Prim2SF_nan. reflexivity. Qed.

(** ** The directive and the options bag *)

Section Directive.
Context `{Intl}.

Lemma split_first (sep : ascii) (s : string) :
  exists h t, split sep s = h :: t.
Proof.
  induction s as [ | c r IH]; simpl.
  - eauto.
  - destruct (Ascii.eqb c sep); [ eauto | ].
    destruct IH as (h & t & ->). eauto.
Qed.

(** The directive has a second segment exactly when it holds the
    separator. *)
Lemma split_second (sep : ascii) (s : string) :
  segment (split sep s) 1 = None <-> after_first sep s = None.
Proof.
  induction s as [ | c r IH]; simpl.
  - tauto.
  - destruct (Ascii.eqb c sep).
    + destruct (split_first sep r) as (h & t & ->). simpl.
      split; discriminate.
    + destruct (split_first sep r) as (h & t & E). rewrite E in *.
      exact IH.
Qed.

(** X2. The constructor throws a TypeError in two cases and no other:
    the element has no [data-counter] attribute, or the directive holds
    no colon. *)
Theorem constructor_type_error (element : HTMLElement) (opts : Options)
    (w : Window) :
  constructor element opts w = Throws TypeError
  <-> match dataset_counter element with
      | None => True
      | Some d => after_first ":" d = None
      end.
Proof.
  unfold constructor.
  destruct (dataset_counter element) as [d | ]; [ | tauto ].
  cbv zeta. rewrite <- (split_second ":" d).
  destruct (split_first ":" d) as (h & t & ->). simpl.
  destruct t as [ | d1 t]; simpl; [ tauto | ].
  destruct (NumberFormat_accepts _ _); split; discriminate.
Qed.

Lemma format_codes_coherent :
  Forall (fun e : string * (string * option string * option string) =>
            let '(st, cu, un) := snd e in
            (st = "currency" /\ cu <> None /\ un = None)
            \/ (st = "unit" /\ cu = None /\ un <> None)
            \/ (st = "percent" /\ cu = None /\ un = None))
         format_codes.
Proof.
  unfold format_codes.
  repeat (constructor;
          [ simpl; first [ left; repeat split; discriminate
                         | right; left; repeat split; discriminate
                         | right; right; repeat split ] | ]).
  constructor.
Qed.

(** X3. Whatever the format code, known or not, the options built for
    [Intl.NumberFormat] hold one of its four styles, a currency exactly
    with the currency style and a unit exactly with the unit style, and
    the same minimum and maximum of fraction digits; a missing or unknown
    code gives the decimal style. *)
Theorem format_options_coherent (code : option string) (digits : number) :
  let o := format_options code digits in
  coherent o
  /\ minimumFractionDigits o = digits
  /\ maximumFractionDigits o = digits
  /\ (match code with
      | None => True
      | Some k => forall e, In e format_codes -> fst e <> k
      end -> style o = "decimal").
Proof.
  unfold format_options, coherent. cbv zeta.
  destruct code as [k | ]; [ | simpl; tauto ].
  destruct (find _ format_codes) as [[k' [[st cu] un]] | ] eqn:E; simpl.
  - apply find_some in E. destruct E as [Hin Hk]. simpl in Hk.
    pose proof (proj1 (Forall_forall _ _) format_codes_coherent _ Hin) as Hc.
    simpl in Hc.
    repeat split.
    + destruct Hc as [(-> & Hcu & ->) | [(-> & -> & Hun) | (-> & -> & ->)]].
      * destruct cu; congruence.
      * destruct un; congruence.
      * tauto.
    + intros Hno. apply String.eqb_eq in Hk. destruct (Hno _ Hin Hk).
  - tauto.
Qed.

(** X1. When the constructor returns, the scroll listener is
    registered and the node shows the formatted target, whether the node
    is in view or not; the increment is 1, 0.1 or 0.01.  In view, the
    animation has been started: ACTIVE, count 1, one frame requested,
    [current] at the start, the clock read.  Out of view nothing has been
    started: READY, count 0, no frame requested. *)
Theorem constructor_postcondition (element : HTMLElement) (opts : Options)
    (w : Window) (p : Page) :
  constructor element opts w = Returns p ->
  scroll_listener p = true
  /\ shows_target (self p)
  /\ (increment (self p) = 1 \/ increment (self p) = 0.1
      \/ increment (self p) = 0.01)
  /\ limit (self p) = match opt_limit opts with Some l => l | None => 0 end
  /\ if inView w
     then state (self p) = ANIM_ACTIVE
          /\ count (self p) = 1
          /\ current (self p) = Num (start (self p))
          /\ timestamp (self p) = currentTime w
          /\ animation_frames p = 1%nat
     else state (self p) = ANIM_READY
          /\ count (self p) = 0
          /\ animation_frames p = 0%nat.
Proof.
  unfold constructor.
  destruct (dataset_counter element) as [d | ]; [ | discriminate ].
  cbv zeta.
  destruct (segment (split ":" d) 0) as [d0 | ]; [ | discriminate ].
  destruct (segment (split ":" d) 1) as [d1 | ]; [ | discriminate ].
  destruct (NumberFormat_accepts _ _); [ | discriminate ].
  intros E. injection E as <-. unfold enable.
  assert (Hinc : forall x : number,
             (if gt x 20 then 1 else if gt x 10 then 0.1 else 0.01) = 1
             \/ (if gt x 20 then 1 else if gt x 10 then 0.1 else 0.01) = 0.1
             \/ (if gt x 20 then 1 else if gt x 10 then 0.1 else 0.01) = 0.01).
  { intros x. destruct (gt x 20); [ tauto | ]. destruct (gt x 10); tauto. }
  destruct (inView w); simpl; repeat split; apply Hinc.
Qed.

End Directive.

(** ** The state, [current] and [timestamp] *)

Section Settled.
Context `{Intl}.

Lemma frame_count (t : number) (c : Counter) : count (frame t c) = count c.
Proof. unfold frame. destruct (gt _ 0); reflexivity. Qed.

Lemma frame_number (t : number) (c : Counter) :
  (exists x, current c = Num x) -> exists x, current (frame t c) = Num x.
Proof.
  intros Hc. unfold frame. destruct (gt _ 0); [ simpl; eauto | exact Hc ].
Qed.

Lemma animate_settled (t : number) (w : Window) (p : Page) :
  settled p -> settled (animate t w p).
Proof.
  unfold settled, animate. cbv zeta.
  destruct (state (self p)) eqn:Hs; try (rewrite Hs; tauto).
  - intros _. simpl. eauto.
  - intros Hp. simpl.
    destruct (frame_number t (self p) Hp) as [x Hx].
    pose proof (frame_state t (self p)) as Hst.
    destruct (settings_target _ _ (frame_settings t (self p))) as [Ht _].
    destruct (ge (ToNumber (current (frame t (self p))))
                 (target (frame t (self p)))) eqn:Hge; simpl.
    + exists x. split; [ exact Hx | ].
      rewrite Hx in Hge. exact Hge.
    + rewrite Hst, Hs. eauto.
Qed.

Lemma reset_settled (p : Page) : settled (on_self reset p).
Proof. split; reflexivity. Qed.

Lemma disable_settled (p : Page) : settled (disable p).
Proof. split; reflexivity. Qed.

Lemma enable_settled (w : Window) (p : Page) : settled (enable w p).
Proof.
  unfold enable. destruct (inView w).
  - pose proof (animate_settled nan w (on_self reset p) (reset_settled p)) as Ha.
    exact Ha.
  - split; reflexivity.
Qed.

Lemma animateOnScroll_settled (w : Window) (p : Page) :
  settled p -> settled (animateOnScroll w p).
Proof.
  intros Hp. unfold animateOnScroll.
  destruct (falsy _ || lt _ _).
  - destruct (negb (inView w)); [ apply reset_settled | ].
    destruct (state_eqb _ _); [ apply animate_settled | ]; exact Hp.
  - destruct (negb _); [ apply disable_settled | exact Hp ].
Qed.

Lemma step_settled (e : event) (p : Page) : settled p -> settled (step e p).
Proof.
  intros Hp. destruct e as [w | t w | t w | w | | w | ]; simpl.
  - unfold scroll_event. destruct (scroll_listener p); [ | exact Hp ].
    apply animateOnScroll_settled, Hp.
  - unfold animation_frame. destruct (animation_frames p); [ exact Hp | ].
    apply animate_settled. exact Hp.
  - apply animate_settled, Hp.
  - apply animateOnScroll_settled, Hp.
  - apply reset_settled.
  - apply enable_settled.
  - apply disable_settled.
Qed.

(** X4. On every page an instance can be found in, [current] and
    [timestamp] go with the state: while READY or DISABLED, [current] is
    the formatted target, a text, and [timestamp] is 0; while ACTIVE,
    [current] is a number; once COMPLETE, it is a number that has reached
    the target. *)
Theorem reachable_settled (p : Page) : reachable p -> settled p.
Proof.
  induction 1 as [element opts w p Hnew | e p _ IH].
  - revert Hnew. unfold constructor.
    destruct (dataset_counter element); [ | discriminate ].
    destruct (segment _ 0); [ | discriminate ].
    destruct (segment _ 1); [ | discriminate ].
    destruct (NumberFormat_accepts _ _); [ | discriminate ].
    intros Hp. injection Hp as <-. apply enable_settled.
  - apply step_settled, IH.
Qed.

(** X5. A frame of an ACTIVE instance that comes after the start
    writes a number that is not above the target: [current] is that
    number and the node shows it formatted. *)
Theorem frame_never_overshoots (t : number) (w : Window) (p : Page) :
  state (self p) = ANIM_ACTIVE ->
  gt (t - timestamp (self p)) 0 = true ->
  exists x,
    current (self (animate t w p)) = Num x
    /\ textContent (node (self (animate t w p)))
       = format (formatter (self p)) x
    /\ gt x (target (self p)) = false.
Proof.
  intros Hs Hpos. unfold animate. rewrite Hs. simpl.
  assert (Hfr : exists x,
             frame t (self p)
             = set_textContent (format (formatter (self p)) x)
                 (set_current (Num x) (self p))
             /\ gt x (target (self p)) = false).
  { unfold frame. rewrite Hpos.
    set (cur := Math_round _ * increment (self p)).
    destruct (gt (t - timestamp (self p)) (duration (self p))).
    - exists (target (self p)). split; [ reflexivity | apply gt_irrefl ].
    - destruct (ge cur (target (self p))) eqn:Hge.
      + exists (target (self p)). split; [ reflexivity | apply gt_irrefl ].
      + exists cur. split; [ reflexivity | ].
        apply not_ge_not_gt. exact Hge. }
  destruct Hfr as (x & Hfr & Hx). exists x.
  destruct (ge (ToNumber (current (frame t (self p))))
               (target (frame t (self p)))); simpl;
    rewrite Hfr; repeat split; exact Hx.
Qed.

(** X6. The frame that comes after the duration ends the run: for an
    ACTIVE instance whose target is a number and whose duration is not
    negative, [animate] with [elapsed > duration] leaves the state
    COMPLETE, the node on the formatted target, and requests no further
    frame. *)
Theorem late_frame_completes (t : number) (w : Window) (p : Page) :
  state (self p) = ANIM_ACTIVE ->
  is_nan (target (self p)) = false ->
  ge (duration (self p)) 0 = true ->
  gt (t - timestamp (self p)) (duration (self p)) = true ->
  state (self (animate t w p)) = ANIM_COMPLETE
  /\ shows_target (self (animate t w p))
  /\ animation_frames (animate t w p) = animation_frames p.
Proof.
  intros Hs Hnum Hdur Hlate.
  pose proof (gt_nonneg _ _ Hdur Hlate) as Hpos.
  unfold animate. rewrite Hs. simpl.
  assert (Hfr : frame t (self p)
                = set_textContent (format (formatter (self p)) (target (self p)))
                    (set_current (Num (target (self p))) (self p))).
  { unfold frame. rewrite Hpos, Hlate. reflexivity. }
  assert (Hge : ge (ToNumber (current (frame t (self p))))
                   (target (frame t (self p))) = true).
  { rewrite Hfr. simpl. apply ge_refl, Hnum. }
  rewrite Hge. simpl. rewrite Hfr.
  split; [ reflexivity | ]. split; reflexivity.
Qed.

Lemma settled_complete `{Intl} (p : Page) :
  settled p -> state (self p) = ANIM_COMPLETE ->
  exists x, current (self p) = Num x /\ ge x (target (self p)) = true.
Proof. unfold settled. cbv zeta. intros Hp Hs. rewrite Hs in Hp. exact Hp. Qed.

End Settled.

(** ** Runs that cannot end, and the queue of frames *)

Section Frames.
Context `{Intl}.

(** What holds of the instance and is kept by [animate] is kept by any
    sequence of animation frames. *)
Lemma frames_keep (P : Counter -> Prop) :
  (forall t w p, P (self p) -> P (self (animate t w p))) ->
  forall ts p, P (self p) -> P (self (run (frames_of ts) p)).
Proof.
  intros Hstep ts. induction ts as [ | [t w] ts IH]; intros p Hp.
  - exact Hp.
  - simpl. apply IH. unfold animation_frame.
    destruct (animation_frames p) as [ | n]; [ exact Hp | ].
    apply (Hstep t w {| self := self p; scroll_listener := scroll_listener p;
                        animation_frames := n |}).
    exact Hp.
Qed.

Lemma frame_nan_duration (t : number) (c : Counter) :
  is_nan (duration c) = true ->
  gt (t - timestamp c) 0 = true ->
  frame t c = set_textContent (format (formatter c) nan)
                (set_current (Num nan) c).
Proof.
  intros Hd Hpos. unfold frame. rewrite Hpos, (is_nan_eq _ Hd).
  rewrite div_nan_r, mul_nan_r, div_nan_l.
  change (Math_round nan) with nan.
  rewrite mul_nan_l, ge_nan_l, gt_nan_r. reflexivity.
Qed.

Lemma animate_nan_duration (t : number) (w : Window) (p : Page) :
  state (self p) = ANIM_ACTIVE
  /\ is_nan (duration (self p)) = true
  /\ ge (ToNumber (current (self p))) (target (self p)) = false ->
  state (self (animate t w p)) = ANIM_ACTIVE
  /\ is_nan (duration (self (animate t w p))) = true
  /\ ge (ToNumber (current (self (animate t w p))))
        (target (self (animate t w p))) = false.
Proof.
  intros (Hs & Hd & Hlow). unfold animate. rewrite Hs. simpl.
  assert (Hfr : state (frame t (self p)) = ANIM_ACTIVE
                /\ is_nan (duration (frame t (self p))) = true
                /\ ge (ToNumber (current (frame t (self p))))
                      (target (frame t (self p))) = false).
  { destruct (gt (t - timestamp (self p)) 0) eqn:Hpos.
    - rewrite (frame_nan_duration t (self p) Hd Hpos). simpl.
      repeat split; try assumption. apply ge_nan_l.
    - unfold frame. rewrite Hpos. tauto. }
  destruct Hfr as (Hs' & Hd' & Hlow'). rewrite Hlow'. simpl. tauto.
Qed.

(** X7. A duration that is NaN, as a malformed duration segment gives,
    makes the animation endless: an ACTIVE instance below its target
    stays ACTIVE through any sequence of animation frames, and every
    frame that comes after the start writes the formatted NaN. *)
Theorem nan_duration_never_completes (p : Page)
    (ts : list (number * Window)) :
  state (self p) = ANIM_ACTIVE ->
  is_nan (duration (self p)) = true ->
  ge (ToNumber (current (self p))) (target (self p)) = false ->
  state (self (run (frames_of ts) p)) = ANIM_ACTIVE
  /\ (forall t w,
        gt (t - timestamp (self p)) 0 = true ->
        textContent (node (self (animate t w p)))
        = format (formatter (self p)) nan).
Proof.
  intros Hs Hd Hlow. split.
  - apply (frames_keep
             (fun c => state c = ANIM_ACTIVE /\ is_nan (duration c) = true
                       /\ ge (ToNumber (current c)) (target c) = false)).
    + intros t w q. apply animate_nan_duration.
    + tauto.
  - intros t w Hpos. unfold animate. rewrite Hs. simpl.
    pose proof (frame_nan_duration t (self p) Hd Hpos) as Hfr.
    destruct (ge (ToNumber (current (frame t (self p))))
                 (target (frame t (self p)))); simpl;
      rewrite Hfr; reflexivity.
Qed.

(** X8. A target that is NaN, as an unparseable target segment gives,
    makes the animation endless too: no comparison with the target
    holds, and an ACTIVE instance stays ACTIVE through any sequence of
    animation frames. *)
Theorem nan_target_never_completes (p : Page) (ts : list (number * Window)) :
  state (self p) = ANIM_ACTIVE ->
  is_nan (target (self p)) = true ->
  state (self (run (frames_of ts) p)) = ANIM_ACTIVE
  /\ is_nan (target (self (run (frames_of ts) p))) = true.
Proof.
  intros Hs Ht.
  apply (frames_keep
           (fun c => state c = ANIM_ACTIVE /\ is_nan (target c) = true));
    [ | tauto ].
  clear. intros t w p (Hs & Ht). unfold animate. rewrite Hs. simpl.
  destruct (settings_target _ _ (frame_settings t (self p))) as [Htg _].
  rewrite Htg, (is_nan_eq _ Ht), ge_nan_r. simpl.
  rewrite Htg, (is_nan_eq _ Ht), frame_state. tauto.
Qed.



End Frames.

(** ** Scrolling, the limit and the count *)

Section Scrolling.
Context `{Intl}.

(** X10. Scrolling the node out of view and back in replays the
    animation, from any state, while the scroll listener is registered
    and the limit test holds: the instance is ACTIVE again from its
    start, the count is one more and one more frame is requested.  The
    frames requested before are not cancelled. *)
Theorem scroll_out_and_in_restarts (w1 w2 : Window) (p : Page) :
  scroll_listener p = true ->
  under_limit (self p) = true ->
  inView w1 = false ->
  inView w2 = true ->
  let q := run [Scroll w1; Scroll w2] p in
  state (self q) = ANIM_ACTIVE
  /\ current (self q) = Num (start (self p))
  /\ timestamp (self q) = currentTime w2
  /\ count (self q) = count (self p) + 1
  /\ animation_frames q = S (animation_frames p)
  /\ shows_target (self q).
Proof.
  intros Hl Hu Hout Hin. unfold under_limit in Hu. cbv zeta.
  change (run [Scroll w1; Scroll w2] p)
    with (scroll_event w2 (scroll_event w1 p)).
  assert (H1 : scroll_event w1 p = on_self reset p).
  { unfold scroll_event, animateOnScroll. rewrite Hl, Hu, Hout. reflexivity. }
  rewrite H1. unfold scroll_event, animateOnScroll. simpl.
  rewrite Hl, Hu, Hin. simpl.
  repeat split.
Qed.

Lemma offscreen_step (e : event) (p : Page) :
  offscreen e = true ->
  animation_frames p = O /\ count (self p) = 0 /\ shows_target (self p)
  /\ (state (self p) = ANIM_READY
      \/ state (self p) = ANIM_DISABLED /\ scroll_listener p = false) ->
  animation_frames (step e p) = O /\ count (self (step e p)) = 0
  /\ shows_target (self (step e p))
  /\ (state (self (step e p)) = ANIM_READY
      \/ state (self (step e p)) = ANIM_DISABLED
         /\ scroll_listener (step e p) = false).
Proof.
  intros He (Hf & Hc & Ht & Hs).
  destruct e as [w | t w | t w | w | | w | ]; try discriminate He; simpl.
  - simpl in He. unfold scroll_event.
    destruct (scroll_listener p) eqn:Hl; [ | tauto ].
    destruct Hs as [Hs | [_ Hs]]; [ | discriminate Hs ].
    unfold animateOnScroll. rewrite He, Hs.
    destruct (falsy _ || lt _ _); simpl;
      (split; [ exact Hf | ]); (split; [ exact Hc | ]);
      (split; [ reflexivity | ]); [ left | right ]; tauto.
  - unfold animation_frame. rewrite Hf. tauto.
Qed.

(** X11. A counter built out of view and never scrolled into view
    never animates: whatever scroll events and frames the browser
    delivers while the node is out of view, the count stays 0, no frame
    is requested, the state is READY or DISABLED and the node shows the
    formatted target. *)
Theorem offscreen_never_animates (element : HTMLElement) (opts : Options)
    (w : Window) (p : Page) (es : list event) :
  constructor element opts w = Returns p ->
  inView w = false ->
  forallb offscreen es = true ->
  let q := run es p in
  count (self q) = 0
  /\ animation_frames q = O
  /\ (state (self q) = ANIM_READY \/ state (self q) = ANIM_DISABLED)
  /\ shows_target (self q).
Proof.
  intros Hnew Hout Hes q.
  assert (Hq : animation_frames q = O /\ count (self q) = 0
               /\ shows_target (self q)
               /\ (state (self q) = ANIM_READY
                   \/ state (self q) = ANIM_DISABLED
                      /\ scroll_listener q = false)).
  { subst q.
    assert (Hp : animation_frames p = O /\ count (self p) = 0
                 /\ shows_target (self p)
                 /\ (state (self p) = ANIM_READY
                     \/ state (self p) = ANIM_DISABLED
                        /\ scroll_listener p = false)).
    { revert Hnew. unfold constructor.
      destruct (dataset_counter element); [ | discriminate ].
      destruct (segment _ 0); [ | discriminate ].
      destruct (segment _ 1); [ | discriminate ].
      destruct (NumberFormat_accepts _ _); [ | discriminate ].
      intros E. injection E as <-. unfold enable. rewrite Hout. simpl.
      repeat split. left. reflexivity. }
    clear Hnew. revert p Hp. induction es as [ | e es IH]; intros p Hp.
    - exact Hp.
    - simpl in Hes. apply andb_prop in Hes. destruct Hes as [He Hes].
      simpl. apply (IH Hes). apply offscreen_step; assumption. }
  tauto.
Qed.

Lemma animateOnScroll_gated (w : Window) (p : Page) :
  gated (animateOnScroll w p).
Proof.
  unfold gated, animateOnScroll, under_limit.
  destruct (falsy (limit (self p)) || lt (count (self p)) (limit (self p)))
    eqn:Hu.
  - destruct (negb (inView w)).
    + intros _. left. exact Hu.
    + destruct (state (self p)) eqn:Hs; simpl; try congruence.
      unfold animate. rewrite Hs. simpl. discriminate.
  - destruct (state (self p)) eqn:Hs; simpl; congruence.
Qed.

Lemma animate_gated (t : number) (w : Window) (p : Page) :
  state (self (animate t w p)) = ANIM_READY -> False.
Proof.
  unfold animate. destruct (state (self p)) eqn:Hs; try congruence.
  - simpl. discriminate.
  - simpl.
    destruct (ge (ToNumber (current (frame t (self p))))
                 (target (frame t (self p)))); simpl; [ discriminate | ].
    rewrite frame_state. congruence.
Qed.

Lemma delivered_gated (e : event) (p : Page) :
  delivered e = true -> gated p -> gated (step e p).
Proof.
  intros He Hp.
  destruct e as [w | t w | t w | w | | w | ]; try discriminate He; simpl.
  - unfold scroll_event. destruct (scroll_listener p); [ | exact Hp ].
    apply animateOnScroll_gated.
  - unfold animation_frame. destruct (animation_frames p) eqn:Hf;
      [ exact Hp | ].
    intros Hr. destruct (animate_gated _ _ _ Hr).
Qed.

(** X12. The limit holds for what the browser delivers.  On a page
    reached from the constructor by scroll events and animation frames
    alone, a scroll event or a frame starts the animation (READY to
    ACTIVE) only while the limit test [!limit || count < limit] holds;
    the start the constructor makes is not subject to it. *)
Theorem delivered_start_is_under_limit (element : HTMLElement)
    (opts : Options) (w : Window) (p0 : Page) (es : list event) (e : event) :
  constructor element opts w = Returns p0 ->
  forallb delivered es = true ->
  delivered e = true ->
  let p := run es p0 in
  state (self p) = ANIM_READY ->
  state (self (step e p)) = ANIM_ACTIVE ->
  under_limit (self p) = true.
Proof.
  intros Hnew Hes He p Hr Ha.
  assert (Hg : gated p).
  { subst p.
    assert (Hg0 : gated p0).
    { revert Hnew. unfold constructor.
      destruct (dataset_counter element); [ | discriminate ].
      destruct (segment _ 0); [ | discriminate ].
      destruct (segment _ 1); [ | discriminate ].
      destruct (NumberFormat_accepts _ _); [ | discriminate ].
      intros E. injection E as <-. unfold enable, gated.
      destruct (inView w); simpl; [ discriminate | tauto ]. }
    clear Hnew Hr Ha. revert p0 Hg0.
    induction es as [ | e' es IH]; intros p0 Hg0.
    - exact Hg0.
    - simpl in Hes. apply andb_prop in Hes. destruct Hes as [He' Hes].
      simpl. apply (IH Hes). apply delivered_gated; assumption. }
  clearbody p. destruct (Hg Hr) as [Hu | Hf]; [ exact Hu | ].
  destruct (under_limit (self p)) eqn:Hu; [ reflexivity | exfalso ].
  unfold under_limit in Hu.
  destruct e as [w' | t w' | t w' | w' | | w' | ]; try discriminate He;
    simpl in Ha.
  - unfold scroll_event in Ha.
    destruct (scroll_listener p); [ | congruence ].
    unfold animateOnScroll in Ha. rewrite Hu, Hr in Ha. simpl in Ha.
    discriminate Ha.
  - unfold animation_frame in Ha. rewrite Hf in Ha. congruence.
Qed.

Lemma animate_count (t : number) (w : Window) (p : Page) :
  count (self (animate t w p)) = count (self p)
  \/ count (self (animate t w p)) = count (self p) + 1
     /\ state (self (animate t w p)) = ANIM_ACTIVE
     /\ current (self (animate t w p)) = Num (start (self p)).
Proof.
  unfold animate. destruct (state (self p)); simpl; try tauto.
  left.
  destruct (ge (ToNumber (current (frame t (self p))))
               (target (frame t (self p)))); simpl; apply frame_count.
Qed.

Lemma animateOnScroll_count (w : Window) (p : Page) :
  count (self (animateOnScroll w p)) = count (self p)
  \/ count (self (animateOnScroll w p)) = count (self p) + 1
     /\ state (self (animateOnScroll w p)) = ANIM_ACTIVE
     /\ current (self (animateOnScroll w p)) = Num (start (self p)).
Proof.
  unfold animateOnScroll. destruct (falsy _ || lt _ _).
  - destruct (negb (inView w)); [ left; reflexivity | ].
    destruct (state_eqb _ _); [ apply animate_count | left; reflexivity ].
  - destruct (negb _); left; reflexivity.
Qed.

(** X13. The count moves only when an animation starts, and then by
    one: whatever happens to an instance, an event or a call, either
    leaves the count as it was or adds 1 to it and leaves the instance
    ACTIVE with [current] at the start. *)
Theorem count_moves_at_start (e : event) (p : Page) :
  count (self (step e p)) = count (self p)
  \/ count (self (step e p)) = count (self p) + 1
     /\ state (self (step e p)) = ANIM_ACTIVE
     /\ current (self (step e p)) = Num (start (self p)).
Proof.
  destruct e as [w | t w | t w | w | | w | ]; simpl.
  - unfold scroll_event. destruct (scroll_listener p); [ | tauto ].
    apply animateOnScroll_count.
  - unfold animation_frame. destruct (animation_frames p); [ tauto | ].
    apply (animate_count t w
             {| self := self p; scroll_listener := scroll_listener p;
                animation_frames := n |}).
  - apply animate_count.
  - apply animateOnScroll_count.
  - left. reflexivity.
  - unfold enable. simpl. destruct (inView w); [ | left; reflexivity ].
    apply (animate_count nan w (on_self reset p)).
  - left. reflexivity.
Qed.

(** X14. [enable] undoes [disable]: enabling a disabled instance gives
    the very page enabling it as it was would give.  [disable] twice is
    [disable] once, and so is [reset]. *)
Theorem enable_after_disable (w : Window) (p : Page) :
  enable w (disable p) = enable w p
  /\ disable (disable p) = disable p
  /\ on_self reset (on_self reset p) = on_self reset p.
Proof.
  split; [ | split; reflexivity ].
  destruct p as [c l f]. destruct c.
  unfold enable, disable, animate, on_self, reset, addEventListener,
    removeEventListener, requestAnimationFrame.
  cbn. destruct (inView w); reflexivity.
Qed.

End Scrolling.

(** ** Counters that start at zero *)

Section FromZero.
Context `{Intl}.

Lemma settings_fields (c c' : Counter) :
  settings c' = settings c ->
  start c' = start c /\ target c' = target c /\ increment c' = increment c.
Proof. unfold settings. intros E. injection E as Hs Ht Hi _ _ _. tauto. Qed.

Lemma sub_zero (x : number) : x - 0 = x.
Proof.
  apply Prim2SF_inj. rewrite sub_spec.
  change (Prim2SF 0) with (S754_zero false).
  destruct (Prim2SF x) as [[ | ] | | | ]; reflexivity.
Qed.

(** X15. For a counter that starts at 0 the step count is the target:
    whatever the increment the constructor chose, [steps()] returns
    [target], as [0 / increment] is 0. *)
Theorem steps_from_zero (element : HTMLElement) (opts : Options)
    (w : Window) (p : Page) :
  constructor element opts w = Returns p ->
  start (self p) = 0 ->
  steps (self p) = target (self p).
Proof.
  unfold constructor.
  destruct (dataset_counter element) as [d | ]; [ | discriminate ].
  cbv zeta.
  destruct (segment (split ":" d) 0) as [d0 | ]; [ | discriminate ].
  destruct (segment (split ":" d) 1) as [d1 | ]; [ | discriminate ].
  destruct (NumberFormat_accepts _ _); [ | discriminate ].
  intros E. injection E as <-.
  match goal with
  | |- start (self (enable w ?p0)) = _ -> _ =>
      destruct (settings_fields _ _ (enable_settings w p0)) as (Hs & Ht & Hi)
  end.
  unfold steps. rewrite Hs, Ht, Hi. simpl. intros ->.
  destruct (gt _ 20); [ apply sub_zero | ].
  destruct (gt _ 10); apply sub_zero.
Qed.

End FromZero.

(* ================================================================== *)
(** * Further concrete runs *)
(* ================================================================== *)

Section MoreExamples.
Import ExampleHost.

(** The directive [0:100], in view with the timeline at 5. *)
Lemma constructor_postcondition_witness :
  exists p,
    constructor (element "0:100") no_options (in_view 5) = Returns p
    /\ scroll_listener p = true
    /\ state (self p) = ANIM_ACTIVE
    /\ count (self p) = 1
    /\ timestamp (self p) = 5.
Proof.
  eexists. split; [ reflexivity | ].
  match goal with
  | |- scroll_listener ?p = _ /\ _ =>
      destruct (constructor_postcondition (H := intl) (element "0:100")
                  no_options (in_view 5) p eq_refl)
        as (Hl & _ & _ & _ & Hv)
  end.
  change (inView (in_view 5)) with true in Hv.
  destruct Hv as (Hs & Hc & _ & Ht & _).
  repeat split; assumption.
Defined.

(** The directive [0:100] run to its end: [current] is a number that has
    reached the target. *)
Lemma reachable_settled_witness :
  exists p,
    constructor (element "0:100") no_options (in_view 0) = Returns p
    /\ let q := run (frames_of [(500, in_view 500); (1501, in_view 1501)]) p in
       state (self q) = ANIM_COMPLETE
       /\ exists x, current (self q) = Num x /\ ge x (target (self q)) = true.
Proof.
  eexists. split; [ reflexivity | ].
  cbv zeta. split; [ reflexivity | ].
  match goal with
  | |- exists x, current (self (run ?es ?p)) = _ /\ _ =>
      assert (Hp : reachable (run es p)) by
        (apply run_reachable;
         apply (reach_new (element "0:100") no_options (in_view 0));
         reflexivity);
      pose proof (reachable_settled (run es p) Hp) as Hq
  end.
  apply (settled_complete _ Hq). vm_compute. reflexivity.
Defined.

(** The directive [50:100] at half its duration. *)
Lemma frame_never_overshoots_witness :
  exists p,
    constructor (element "50:100") no_options (in_view 0) = Returns p
    /\ exists x,
         current (self (animate 750 (in_view 750) p)) = Num x
         /\ gt x 100 = false.
Proof.
  eexists. split; [ reflexivity | ].
  match goal with
  | |- exists x, current (self (animate ?t ?w ?p)) = _ /\ _ =>
      destruct (frame_never_overshoots t w p eq_refl eq_refl)
        as (x & Hx & _ & Hle)
  end.
  exists x. split; [ exact Hx | exact Hle ].
Defined.

(** The directive [0:100:1] with a frame one millisecond after the
    duration. *)
Lemma late_frame_completes_witness :
  exists p,
    constructor (element "0:100:1") no_options (in_view 0) = Returns p
    /\ state (self (animate 1001 (in_view 1001) p)) = ANIM_COMPLETE
    /\ animation_frames (animate 1001 (in_view 1001) p) = 1%nat.
Proof.
  eexists. split; [ reflexivity | ].
  match goal with
  | |- state (self (animate ?t ?w ?p)) = _ /\ _ =>
      destruct (late_frame_completes t w p eq_refl eq_refl eq_refl eq_refl)
        as (Hs & _ & Hf)
  end.
  split; [ exact Hs | ]. rewrite Hf. reflexivity.
Defined.

(** The directive [0:100:abc]: the duration is NaN. *)
Lemma nan_duration_never_completes_witness :
  exists p,
    constructor (element "0:100:abc") no_options (in_view 0) = Returns p
    /\ state (self (run (frames_of [(500, in_view 500); (9000, in_view 9000)]) p))
       = ANIM_ACTIVE
    /\ textContent (node (self (animate 500 (in_view 500) p))) = "NaN".
Proof.
  eexists. split; [ reflexivity | ].
  match goal with
  | |- state (self (run (frames_of ?ts) ?p)) = _ /\ _ =>
      destruct (nan_duration_never_completes p ts eq_refl eq_refl eq_refl)
        as (Hs & Ht)
  end.
  split; [ exact Hs | ].
  rewrite (Ht 500 (in_view 500) eq_refl). reflexivity.
Defined.

(** The directive [0:abc]: the target is NaN. *)
Lemma nan_target_never_completes_witness :
  exists p,
    constructor (element "0:abc") no_options (in_view 0) = Returns p
    /\ state (self (run (frames_of [(500, in_view 500); (9000, in_view 9000)]) p))
       = ANIM_ACTIVE.
Proof.
  eexists. split; [ reflexivity | ].
  match goal with
  | |- state (self (run (frames_of ?ts) ?p)) = _ =>
      destruct (nan_target_never_completes p ts eq_refl eq_refl) as (Hs & _)
  end.
  exact Hs.
Defined.


(** A running animation scrolled out of view and back in: a second run
    is started beside the frame of the first. *)
Lemma scroll_out_and_in_restarts_witness :
  exists p,
    constructor (element "0:100") no_options (in_view 0) = Returns p
    /\ animation_frames p = 1%nat
    /\ let q := run [Scroll (out_of_view 100); Scroll (in_view 200)] p in
       state (self q) = ANIM_ACTIVE
       /\ count (self q) = 2
       /\ animation_frames q = 2%nat.
Proof.
  eexists. split; [ reflexivity | ].
  split; [ reflexivity | ].
  match goal with
  | |- let q := run [Scroll ?w1; Scroll ?w2] ?p in _ =>
      pose proof (scroll_out_and_in_restarts w1 w2 p
                    eq_refl eq_refl eq_refl eq_refl) as Hq
  end.
  cbv zeta in Hq |- *. destruct Hq as (Hs & _ & _ & Hc & Hf & _).
  split; [ exact Hs | ].
  split; [ rewrite Hc; reflexivity | rewrite Hf; reflexivity ].
Defined.

(** The directive [0:50] below the fold. *)
Lemma offscreen_never_animates_witness :
  exists p,
    constructor (element "0:50") no_options (out_of_view 0) = Returns p
    /\ let q := run [Scroll (out_of_view 10); Frame 20 (in_view 20);
                     Scroll (out_of_view 30)] p in
       count (self q) = 0
       /\ state (self q) = ANIM_READY
       /\ textContent (node (self q)) = "50".
Proof.
  eexists. split; [ reflexivity | ].
  match goal with
  | |- let q := run ?es ?p in _ =>
      pose proof (offscreen_never_animates (H := intl) (element "0:50")
                    no_options (out_of_view 0) p es
                    eq_refl eq_refl eq_refl) as Hq
  end.
  cbv zeta in Hq |- *. destruct Hq as (Hc & _ & _ & Ht).
  split; [ exact Hc | ].
  split; [ reflexivity | ]. rewrite Ht. reflexivity.
Defined.

(** With the limit 1, built out of view: the scroll event that brings
    the node into view starts the one run the limit allows. *)
Lemma delivered_start_is_under_limit_witness :
  exists p,
    constructor (element "0:100") limit_once (out_of_view 0) = Returns p
    /\ let q := run [Scroll (out_of_view 5)] p in
       state (self (step (Scroll (in_view 10)) q)) = ANIM_ACTIVE
       /\ under_limit (self q) = true.
Proof.
  eexists. split; [ reflexivity | ].
  cbv zeta. split; [ reflexivity | ].
  match goal with
  | |- under_limit (self (run ?es ?p)) = true =>
      exact (delivered_start_is_under_limit (H := intl) (element "0:100")
               limit_once (out_of_view 0) p es (Scroll (in_view 10))
               eq_refl eq_refl eq_refl eq_refl eq_refl)
  end.
Defined.

(** The directive [0:5.25]: increment 0.01, and 5.25 steps. *)
Lemma steps_from_zero_witness :
  exists p,
    constructor (element "0:5.25") no_options (out_of_view 0) = Returns p
    /\ increment (self p) = 0.01
    /\ steps (self p) = 5.25.
Proof.
  eexists. split; [ reflexivity | ].
  split; [ reflexivity | ].
  match goal with
  | |- steps (self ?p) = _ =>
      rewrite (steps_from_zero (H := intl) (element "0:5.25") no_options
                 (out_of_view 0) p eq_refl eq_refl)
  end.
  reflexivity.
Defined.

End MoreExamples.
